(** * tools/create_demo_model.py: the demo model and vocabulary generator

    A shallow embedding of the script that builds the placeholder SMS
    classifier, writes its vocabulary file and smoke-tests the exported
    model, together with the properties its specification states.

    Layout:
    - [Py]: the fragment of the Python runtime the script relies on
      (str of an int, range, list extend/append, str.join, str.split);
    - the vocabulary builder [create_vocabulary];
    - the Keras layer stack and its shape propagation;
    - the NumPy sample input;
    - the effectful script (console, file system, framework calls that may
      raise) in a state-and-exception monad;
    - the theorems, one per specification claim (C1 .. C10), followed by
      further properties of the vocabulary builder and of the script
      (X1 .. X13). *)

From Stdlib Require Import String Ascii DecimalString DecimalNat ZArith QArith Lia.
From Stdlib Require Import SpecFloat.
From stdpp Require Import gmap strings list.

Open Scope string_scope.
Open Scope nat_scope.

(* ================================================================== *)
(** * The Python fragment *)
(* ================================================================== *)

Module Py.

(** [str(i)] for a non-negative int: its decimal numeral. *)
Definition str (i : nat) : string := NilZero.string_of_uint (Nat.to_uint i).

(** [int(s)] restricted to unsigned decimal numerals; [None] stands for
    the ValueError Python raises on anything else. *)
Definition int (s : string) : option nat :=
  match NilZero.uint_of_string s with
  | Some d => Some (Nat.of_uint d)
  | None => None
  end.

(** [range(a, b)]: empty when [b <= a]. *)
Definition range (a b : nat) : list nat := seq a (b - a).

(** [for x in xs: acc = body(acc, x)], the loop over an iterable that
    updates one accumulator. *)
Definition for_in {A S : Type} (xs : list A) (body : S -> A -> S) (init : S) : S :=
  fold_left body xs init.

(** [l.extend(ws)] and [l.append(w)] on a list held in a local variable. *)
Definition extend {A : Type} (l ws : list A) : list A := l ++ ws.
Definition append {A : Type} (l : list A) (w : A) : list A := l ++ [w].

(** The line feed and [sep.join(l)]. *)
Definition LF : ascii := ascii_of_nat 10.
Definition NL : string := String LF EmptyString.
Definition join (sep : string) (l : list string) : string := String.concat sep l.

(** [s.split('\n')]: the fields between line feeds; always at least one
    field.  [cur] accumulates the current field in reverse. *)
Fixpoint rev_string (acc s : string) : string :=
  match s with
  | EmptyString => acc
  | String c s' => rev_string (String c acc) s'
  end.

Fixpoint split_lines_aux (cur : string) (s : string) : list string :=
  match s with
  | EmptyString => [rev_string EmptyString cur]
  | String c s' =>
      if Ascii.eqb c LF
      then rev_string EmptyString cur :: split_lines_aux EmptyString s'
      else split_lines_aux (String c cur) s'
  end.

Definition split_lines (s : string) : list string := split_lines_aux EmptyString s.

(** [s.count('\n')]. *)
Fixpoint count_LF (s : string) : nat :=
  match s with
  | EmptyString => 0
  | String c s' => (if Ascii.eqb c LF then 1 else 0) + count_LF s'
  end.

(** ['\n' in s], negated. *)
Fixpoint no_LF (s : string) : bool :=
  match s with
  | EmptyString => true
  | String c s' => negb (Ascii.eqb c LF) && no_LF s'
  end.

(** [s * n] on a string. *)
Fixpoint mul_str (s : string) (n : nat) : string :=
  match n with
  | 0 => EmptyString
  | S n' => s ++ mul_str s n'
  end.

(** The slice [s[n:]]. *)
Fixpoint slice_from (n : nat) (s : string) : string :=
  match n, s with
  | 0, _ => s
  | S n', String _ s' => slice_from n' s'
  | S _, EmptyString => EmptyString
  end.

(** [s.startswith(p)] and [s.endswith(p)]. *)
Definition startswith (s p : string) : bool := String.prefix p s.
Definition endswith (s p : string) : bool :=
  String.prefix (rev_string EmptyString p) (rev_string EmptyString s).

End Py.

(* ================================================================== *)
(** * The vocabulary builder (pure part) *)
(* ================================================================== *)

(** The [keywords] dict of [create_vocabulary].  A Python dict iterates in
    insertion order, so the literal is kept as an association list in the
    order it is written. *)
Definition keywords : list (string * list string) :=
  [ ("special_tokens", ["[PAD]"; "[UNK]"]);
    ("otp", ["otp"; "code"; "verify"; "verification"; "authentication"; "pin";
             "passcode"; "confirm"; "security"; "temporary"]);
    ("banking", ["bank"; "account"; "balance"; "credited"; "debited";
                 "transaction"; "atm"; "withdrawal"; "deposit"; "statement"]);
    ("finance", ["payment"; "invoice"; "due"; "bill"; "loan"; "emi";
                 "insurance"; "credit"; "card"; "stock"; "investment"]);
    ("offers", ["offer"; "discount"; "sale"; "deal"; "save"; "flat";
                "off"; "special"; "price"; "limited"; "hurry"]);
    ("coupons", ["coupon"; "promo"; "voucher"; "redeem"; "cashback";
                 "reward"; "points"; "gift"]);
    ("common", ["dear"; "customer"; "your"; "the"; "is"; "for"; "and";
                "to"; "from"; "on"; "at"; "in"; "with"; "by"; "as";
                "this"; "that"; "have"; "has"; "will"; "can"; "get";
                "now"; "today"; "call"; "visit"; "click"; "reply";
                "message"; "sms"; "alert"; "notification"; "update"]);
    ("numbers", map Py.str (Py.range 0 100)) ].

(** The f-string [f'token_{i}']. *)
Definition token (i : nat) : string := "token_" ++ Py.str i.

(** The two loops of [create_vocabulary], over an arbitrary [keywords] dict
    and an arbitrary bound in place of the literal 5000:
<<
    vocab = []
    for category, words in keywords.items():
        vocab.extend(words)
    for i in range(len(vocab), 5000):
        vocab.append(f'token_{i}')
>>
    The range is evaluated once, before the second loop starts. *)
Definition flatten_keywords (kws : list (string * list string)) : list string :=
  Py.for_in kws (fun vocab '(category, words) => Py.extend vocab words) [].

Definition pad_vocab (capacity : nat) (vocab : list string) : list string :=
  Py.for_in (Py.range (length vocab) capacity)
            (fun vocab i => Py.append vocab (token i)) vocab.

Definition build_vocab (kws : list (string * list string)) (capacity : nat) : list string :=
  pad_vocab capacity (flatten_keywords kws).

(** The list [create_vocabulary] holds in [vocab] when it opens the file,
    and the text it writes. *)
Definition vocab : list string := build_vocab keywords 5000.
Definition vocab_text : string := Py.join Py.NL vocab.

(* ================================================================== *)
(** * The Keras layer stack and its declared shapes *)
(* ================================================================== *)

Inductive activation := relu | softmax.

(** The layer constructors the script calls, with the arguments it passes.
    A dropout rate is kept as the decimal literal of the source. *)
Inductive layer :=
| Embedding (input_dim output_dim input_length : nat) (name : string)
| GlobalAveragePooling1D (name : string)
| Dense (units : nat) (act : activation) (name : string)
| Dropout (rate : Q) (name : string).

(** A fully static tensor shape, as in [tf.TensorSpec(shape=[1, max_length])]. *)
Definition shape := list nat.

Inductive dtype := float32 | float16.

Record TensorSpec := { spec_shape : shape; spec_dtype : dtype }.

(** Modelled from the spec: the output shape of each Keras layer, which the
    script takes from TensorFlow.  The specification describes the stack as
    token-id sequence, embedding lookup (one vector of the embedding width
    per token id), average-pool across sequence position (a sequence of
    vectors becomes one vector), dense layers (a projection to the layer's
    unit count) and stochastic zeroing (a no-op on shapes).  Hence:
    - Embedding appends the embedding width;
    - GlobalAveragePooling1D takes (batch, steps, features) to
      (batch, features);
    - Dense replaces the last axis with its unit count (rank at least 2);
    - Dropout keeps the shape.
    [None] is the ValueError Keras raises on an input of the wrong rank. *)
Definition replace_last (s : shape) (u : nat) : shape := (removelast s ++ [u])%list.

Definition layer_output_shape (l : layer) (s : shape) : option shape :=
  match l with
  | Embedding _ output_dim _ _ => Some (s ++ [output_dim])%list
  | GlobalAveragePooling1D _ =>
      match s with
      | [batch; _; features] => Some [batch; features]
      | _ => None
      end
  | Dense units _ _ =>
      match s with
      | _ :: _ :: _ => Some (replace_last s units)
      | _ => None
      end
  | Dropout _ _ => Some s
  end.

(** [tf.keras.Sequential]: the layers applied in order. *)
Fixpoint sequential_output_shape (ls : list layer) (s : shape) : option shape :=
  match ls with
  | [] => Some s
  | l :: ls' =>
      match layer_output_shape l s with
      | Some s' => sequential_output_shape ls' s'
      | None => None
      end
  end.

(** The layer list of [create_demo_model], over its four model parameters. *)
Definition demo_layers (vocab_size embedding_dim max_length num_categories : nat)
  : list layer :=
  [ Embedding vocab_size embedding_dim max_length "embedding";
    GlobalAveragePooling1D "pooling";
    Dense 64 relu "dense1";
    Dropout (3 # 10) "dropout1";
    Dense 32 relu "dense2";
    Dropout (3 # 10) "dropout2";
    Dense num_categories softmax "output" ].

(** The export signature of [model_fn]. *)
Definition demo_signature (max_length : nat) : TensorSpec :=
  {| spec_shape := [1; max_length]; spec_dtype := float32 |}.

(** The model parameters as the script sets them. *)
Definition vocab_size : nat := 5000.
Definition embedding_dim : nat := 32.
Definition max_length : nat := 128.
Definition num_categories : nat := 8.

Definition model_layers : list layer :=
  demo_layers vocab_size embedding_dim max_length num_categories.

Definition input_signature : TensorSpec := demo_signature max_length.

(** Shapes the exported model declares: its input is the signature's shape,
    its output what the layer stack yields on that input. *)
Definition declared_input_shape : shape := spec_shape input_signature.
Definition declared_output_shape : option shape :=
  sequential_output_shape model_layers declared_input_shape.

(** Row count of the embedding table of a layer list (the [input_dim] of
    its Embedding layer). *)
Definition embedding_rows (ls : list layer) : option nat :=
  match ls with
  | Embedding input_dim _ _ _ :: _ => Some input_dim
  | _ => None
  end.

(* ================================================================== *)
(** * The NumPy sample input *)
(* ================================================================== *)

(** IEEE-754 binary32: 24 bits of precision, maximal exponent 128. *)
Definition f32_prec : Z := 24.
Definition f32_emax : Z := 128.

(** Conversion of a Python int to [np.float32]: the nearest binary32
    value, ties to even, as IEEE-754 prescribes. *)
Definition float32_of_int (z : Z) : spec_float :=
  binary_normalize f32_prec f32_emax z 0 false.

(** The integer a finite binary32 value denotes, when it is one. *)
Definition int_of_float32 (f : spec_float) : option Z :=
  match f with
  | S754_zero _ => Some 0%Z
  | S754_finite s m e =>
      if (0 <=? e)%Z
      then Some ((if s then -1 else 1) * Z.pos m * 2 ^ e)%Z
      else if (Z.pos m mod 2 ^ (- e) =? 0)%Z
           then Some ((if s then -1 else 1) * (Z.pos m / 2 ^ (- e)))%Z
           else None
  | _ => None
  end.

(** A two-dimensional array: its rows, and the dtype it was built with. *)
Record ndarray := { nd_dtype : dtype; nd_rows : list (list spec_float) }.

(** [a.shape] of a rectangular two-dimensional array. *)
Definition nd_shape (a : ndarray) : shape :=
  [length (nd_rows a); match nd_rows a with r :: _ => length r | [] => 0 end].

(** [np.array(rows, dtype=np.float32)] on a nested list of ints. *)
Definition np_array_float32 (rows : list (list Z)) : ndarray :=
  {| nd_dtype := float32; nd_rows := map (map float32_of_int) rows |}.

(** [[1, 2, 3, 4, 5] + [0] * 123], the single row of the sample. *)
Definition sample_row : list Z := [1; 2; 3; 4; 5]%Z ++ repeat 0%Z 123.

(** [sample_input] of [test_model]. *)
Definition sample_input : ndarray := np_array_float32 [sample_row].

(* ================================================================== *)
(** * Exceptions and the framework interface *)
(* ================================================================== *)

(** A raised Python error: an instance of a subclass of [Exception]
    (ValueError, RuntimeError, OSError, IndexError, ...), with the text
    [str(e)] yields.  These are the errors [except Exception] handles. *)
Record exn := { exn_class : string; exn_msg : string }.

Inductive result (A : Type) : Type :=
| Ok (a : A)
| Raise (e : exn).
Arguments Ok {A} a.
Arguments Raise {A} e.

(** A call into the framework: it may raise, and it may change the
    framework's hidden state (random generator, graph registry). *)
Definition call (S A : Type) : Type := S -> result A * S.

(** Converter attributes the script assigns before [convert()]. *)
Inductive OpsSet := TFLITE_BUILTINS | SELECT_TF_OPS.
Inductive Optimize := DEFAULT.

Record converter_settings := {
  supported_ops : list OpsSet;
  experimental_lower_tensor_list_ops : bool;
  optimizations : list Optimize;
  supported_types : list dtype
}.

(** One entry of [get_input_details()] / [get_output_details()]: the keys
    the script reads. *)
Record tensor_details := { td_index : Z; td_shape : shape }.

(** The calls on [tf.lite.Interpreter] that [test_model] makes, over the
    type [S] of the framework's hidden state and the type [O] of its
    objects.  The constructor sees the file at model_path, if there is
    one. *)
Record Interpreter_api (S O : Type) := {
  lite_Interpreter : string -> option string -> call S O;
  lite_allocate_tensors : O -> call S unit;
  lite_get_input_details : O -> call S (list tensor_details);
  lite_get_output_details : O -> call S (list tensor_details);
  lite_set_tensor : O -> Z -> ndarray -> call S unit;
  lite_invoke : O -> call S unit;
  lite_get_tensor : O -> Z -> call S ndarray
}.
Arguments lite_Interpreter {S O} _ _ _ _.
Arguments lite_allocate_tensors {S O} _ _ _.
Arguments lite_get_input_details {S O} _ _ _.
Arguments lite_get_output_details {S O} _ _ _.
Arguments lite_set_tensor {S O} _ _ _ _ _.
Arguments lite_invoke {S O} _ _ _.
Arguments lite_get_tensor {S O} _ _ _ _.

(** Everything the script takes from TensorFlow, NumPy and the operating
    system.  Nothing is assumed about these calls: each may return or
    raise, depending on its arguments and on the hidden state. *)
Record Framework := {
  fw_state : Type;
  fw_obj : Type;
  (* tf.keras *)
  keras_Sequential : list layer -> call fw_state fw_obj;
  keras_compile : fw_obj -> string -> string -> list string -> call fw_state unit;
  keras_build : fw_obj -> list (option nat) -> call fw_state unit;
  keras_summary : fw_obj -> call fw_state string;
  (* tf.function(input_signature=[spec]) around model(x, training=False),
     then get_concrete_function() *)
  tf_get_concrete_function : fw_obj -> TensorSpec -> call fw_state fw_obj;
  (* tf.lite converter *)
  lite_from_concrete_functions : list fw_obj -> call fw_state fw_obj;
  lite_convert : fw_obj -> converter_settings -> call fw_state string;
  (* tf.lite.Interpreter *)
  tflite : Interpreter_api fw_state fw_obj;
  (* the operating system: opening a path for writing and writing to it *)
  os_write : string -> string -> call fw_state unit;
  (* text formatting done by NumPy and by float format specs *)
  fmt_int_array : shape -> string;
  fmt_float_array : list spec_float -> string;
  fmt_megabytes : nat -> string
}.

(** The same framework with another interpreter. *)
Definition with_tflite (fw : Framework)
    (api : Interpreter_api (fw_state fw) (fw_obj fw)) : Framework :=
  {| fw_state := fw_state fw;
     fw_obj := fw_obj fw;
     keras_Sequential := keras_Sequential fw;
     keras_compile := keras_compile fw;
     keras_build := keras_build fw;
     keras_summary := keras_summary fw;
     tf_get_concrete_function := tf_get_concrete_function fw;
     lite_from_concrete_functions := lite_from_concrete_functions fw;
     lite_convert := lite_convert fw;
     tflite := api;
     os_write := os_write fw;
     fmt_int_array := fmt_int_array fw;
     fmt_float_array := fmt_float_array fw;
     fmt_megabytes := fmt_megabytes fw |}.

(* ================================================================== *)
(** * The script *)
(* ================================================================== *)

(** What a run can observe and change: the lines printed so far, the files
    on disk, and the framework's hidden state. *)
Record world (S : Type) := {
  console : list string;
  files : gmap string string;
  hidden : S
}.
Arguments console {S} w.
Arguments files {S} w.
Arguments hidden {S} w.

(** The world after one more line has been printed. *)
Definition printed {S : Type} (w : world S) (line : string) : world S :=
  {| console := console w ++ [line]; files := files w; hidden := hidden w |}.

Section Script.

Variable fw : Framework.

(** State and exception monad of the script. *)
Definition M (A : Type) : Type :=
  world (fw_state fw) -> result A * world (fw_state fw).

Definition ret {A : Type} (a : A) : M A := fun w => (Ok a, w).

Definition bind {A B : Type} (c : M A) (k : A -> M B) : M B :=
  fun w =>
    match c w with
    | (Ok a, w') => k a w'
    | (Raise e, w') => (Raise e, w')
    end.

Definition raise {A : Type} (e : exn) : M A := fun w => (Raise e, w).

(** [try: body / except Exception as e: handler(e)]. *)
Definition try_except {A : Type} (body : M A) (handler : exn -> M A) : M A :=
  fun w =>
    match body w with
    | (Ok a, w') => (Ok a, w')
    | (Raise e, w') => handler e w'
    end.

(** A framework call run from the script: only the hidden state moves. *)
Definition lift {A : Type} (c : call (fw_state fw) A) : M A :=
  fun w =>
    let '(r, h) := c (hidden w) in
    (r, {| console := console w; files := files w; hidden := h |}).

(** [print(s)]. *)
Definition print (s : string) : M unit := fun w => (Ok tt, printed w s).

(** [with open(path, mode) as f: f.write(data)], for the modes 'wb' and
    'w' with UTF-8 encoding: when the operating system accepts the write,
    the file holds exactly [data] afterwards (both modes truncate).  A
    [string] here is a sequence of bytes; text is kept in its UTF-8
    encoding, and a line feed is written as one line feed, as on every
    system whose [os.linesep] is the line feed. *)
Definition write_file (path data : string) : M unit :=
  bind (lift (os_write fw path data)) (fun _ =>
    fun w =>
      (Ok tt, {| console := console w; files := <[path := data]> (files w);
                 hidden := hidden w |})).

(** [os.path.getsize(path)]. *)
Definition getsize (path : string) : M nat :=
  fun w =>
    match files w !! path with
    | Some data => (Ok (String.length data), w)
    | None => (Raise {| exn_class := "FileNotFoundError"; exn_msg := path |}, w)
    end.

(** [l[0]] on a Python list. *)
Definition item0 {A : Type} (l : list A) : M A :=
  match l with
  | x :: _ => ret x
  | [] => raise {| exn_class := "IndexError"; exn_msg := "list index out of range" |}
  end.

End Script.

Arguments ret {fw A} a.
Arguments bind {fw A B} c k.
Arguments raise {fw A} e.
Arguments try_except {fw A} body handler.
Arguments lift {fw A} c.
Arguments print {fw} s.
Arguments item0 {fw A} l.

Declare Scope script_scope.
Delimit Scope script_scope with script.
Notation "'let*' x ':=' c 'in' k" := (bind c (fun x => k))
  (at level 10, x name, c at level 100, k at level 200) : script_scope.
Notation "c ';;;' k" := (bind c (fun _ => k))
  (at level 100, k at level 200, right associativity) : script_scope.

Section Program.

Variable fw : Framework.
Local Open Scope script_scope.

(** The fixed output paths. *)
Definition model_path : string := "sms_classifier.tflite".
Definition vocab_path : string := "vocab.txt".

(** The attributes [create_demo_model] sets on the converter. *)
Definition demo_settings : converter_settings :=
  {| supported_ops := [TFLITE_BUILTINS];
     experimental_lower_tensor_list_ops := false;
     optimizations := [DEFAULT];
     supported_types := [float16] |}.

(** [create_demo_model()], over its four model parameters.  No statement
    of it sits in a [try]. *)
Definition create_demo_model_with
    (vocab_size embedding_dim max_length num_categories : nat) : M fw string :=
  print "Creating demo SMS classification model..." ;;;
  print "Note: Using simple architecture with standard TFLite ops for maximum compatibility" ;;;
  let* model := lift (keras_Sequential fw
                        (demo_layers vocab_size embedding_dim max_length num_categories)) in
  lift (keras_compile fw model "adam" "sparse_categorical_crossentropy" ["accuracy"]) ;;;
  lift (keras_build fw model [None; Some max_length]) ;;;
  print (Py.NL ++ "Model Architecture:") ;;;
  let* summary := lift (keras_summary fw model) in
  print summary ;;;
  print (Py.NL ++ "Converting to TensorFlow Lite...") ;;;
  print "Using standard TFLite ops only (no Flex ops needed)..." ;;;
  let* concrete_func := lift (tf_get_concrete_function fw model (demo_signature max_length)) in
  let* converter := lift (lite_from_concrete_functions fw [concrete_func]) in
  let* tflite_model := lift (lite_convert fw converter demo_settings) in
  write_file fw model_path tflite_model ;;;
  let* size := getsize fw model_path in
  print (Py.NL ++ "✓ Model saved to: " ++ model_path) ;;;
  print ("  Size: " ++ fmt_megabytes fw size ++ " MB") ;;;
  ret model_path.

Definition create_demo_model : M fw string :=
  create_demo_model_with vocab_size embedding_dim max_length num_categories.

(** [create_vocabulary()], over the keyword dict and the padding bound. *)
Definition create_vocabulary_with
    (kws : list (string * list string)) (capacity : nat) : M fw string :=
  print (Py.NL ++ "Creating vocabulary file...") ;;;
  let vocab := build_vocab kws capacity in
  write_file fw vocab_path (Py.join Py.NL vocab) ;;;
  print ("✓ Vocabulary saved to: " ++ vocab_path) ;;;
  print ("  Size: " ++ Py.str (length vocab) ++ " tokens") ;;;
  ret vocab_path.

Definition create_vocabulary : M fw string :=
  create_vocabulary_with keywords 5000.

(** The body of the [try] block of [test_model]. *)
Definition test_model_body (model_path : string) : M fw unit :=
  let* interpreter :=
    (fun w => lift (lite_Interpreter (tflite fw) model_path (files w !! model_path)) w) in
  lift (lite_allocate_tensors (tflite fw) interpreter) ;;;
  let* input_details := lift (lite_get_input_details (tflite fw) interpreter) in
  let* output_details := lift (lite_get_output_details (tflite fw) interpreter) in
  print (Py.NL ++ "Model Details:") ;;;
  let* in0 := item0 input_details in
  print ("  Input shape: " ++ fmt_int_array fw (td_shape in0)) ;;;
  let* out0 := item0 output_details in
  print ("  Output shape: " ++ fmt_int_array fw (td_shape out0)) ;;;
  let* in0 := item0 input_details in
  lift (lite_set_tensor (tflite fw) interpreter (td_index in0) sample_input) ;;;
  lift (lite_invoke (tflite fw) interpreter) ;;;
  let* out0 := item0 output_details in
  let* output := lift (lite_get_tensor (tflite fw) interpreter (td_index out0)) in
  print (Py.NL ++ "Sample inference successful!") ;;;
  print ("  Output shape: (" ++ Py.join ", " (map Py.str (nd_shape output)) ++ ")") ;;;
  let* row0 := item0 (nd_rows output) in
  print ("  Sample output: " ++ fmt_float_array fw (firstn 3 row0)
          ++ "... (showing first 3 values)") ;;;
  ret tt.

(** [test_model(model_path)]. *)
Definition test_model (model_path : string) : M fw unit :=
  print (Py.NL ++ "Testing model...") ;;;
  try_except (test_model_body model_path)
    (fun e => print ("⚠ Error testing model: " ++ exn_msg e)).

(** [main()]. *)
Definition main_with (vocab_size embedding_dim max_length num_categories : nat)
    (kws : list (string * list string)) (capacity : nat) : M fw unit :=
  print (Py.mul_str "=" 60) ;;;
  print "SMS Classifier Demo Model Creator" ;;;
  print (Py.mul_str "=" 60) ;;;
  print "" ;;;
  print "⚠ WARNING: This creates a demo model with random weights!" ;;;
  print "For production use, train a proper model on labeled SMS data." ;;;
  print "" ;;;
  let* model_path :=
    create_demo_model_with vocab_size embedding_dim max_length num_categories in
  let* vocab_path := create_vocabulary_with kws capacity in
  test_model model_path ;;;
  print (Py.NL ++ Py.mul_str "=" 60) ;;;
  print "Setup Instructions:" ;;;
  print (Py.mul_str "=" 60) ;;;
  print ("1. Copy " ++ model_path ++ " to assets/ml_models/") ;;;
  print ("2. Copy " ++ vocab_path ++ " to assets/ml_models/") ;;;
  print "3. Run: flutter pub get" ;;;
  print "4. Run: flutter run" ;;;
  print "" ;;;
  print "The app will now use on-device AI classification!" ;;;
  print "" ;;;
  print "For better accuracy, train a proper model using:" ;;;
  print "  See AI_MODEL_SETUP.md for training instructions" ;;;
  print (Py.mul_str "=" 60).

Definition main : M fw unit :=
  main_with vocab_size embedding_dim max_length num_categories keywords 5000.

(** [if __name__ == '__main__': main()]: the exit status of the process.
    A normal return exits with 0; an exception that reaches the top level
    makes the interpreter print a traceback and exit with 1. *)
Definition exit_status (r : result unit) : Z :=
  match r with
  | Ok _ => 0
  | Raise _ => 1
  end.

Definition script (w : world (fw_state fw)) : Z * world (fw_state fw) :=
  let '(r, w') := main w in (exit_status r, w').

End Program.

(* ================================================================== *)
(** * Notions used to state the properties *)
(* ================================================================== *)

(** The number a filler token carries in its name: [int(t[6:])] when [t]
    starts with "token_". *)
Definition token_index (t : string) : option nat :=
  if Py.startswith t "token_" then Py.int (Py.slice_from 6 t) else None.

(** The number of lines of a text file, as [len(text.split('\n'))]. *)
Definition line_count (text : string) : nat := length (Py.split_lines text).

(** What [main] prints before it calls [create_demo_model], and the world
    in which that call starts. *)
Definition banner_lines : list string :=
  [ Py.mul_str "=" 60;
    "SMS Classifier Demo Model Creator";
    Py.mul_str "=" 60;
    "";
    "⚠ WARNING: This creates a demo model with random weights!";
    "For production use, train a proper model on labeled SMS data.";
    "" ].

Definition after_banner {S : Type} (w : world S) : world S :=
  fold_left printed banner_lines w.

(** What [main] prints after [test_model] has returned. *)
Definition footer_lines (model_path vocab_path : string) : list string :=
  [ Py.NL ++ Py.mul_str "=" 60;
    "Setup Instructions:";
    Py.mul_str "=" 60;
    "1. Copy " ++ model_path ++ " to assets/ml_models/";
    "2. Copy " ++ vocab_path ++ " to assets/ml_models/";
    "3. Run: flutter pub get";
    "4. Run: flutter run";
    "";
    "The app will now use on-device AI classification!";
    "";
    "For better accuracy, train a proper model using:";
    "  See AI_MODEL_SETUP.md for training instructions";
    Py.mul_str "=" 60 ].

(** The world in which [test_model] enters its [try] block. *)
Definition at_try {S : Type} (w : world S) : world S :=
  printed w (Py.NL ++ "Testing model...").

(** The world after the handler of [test_model] has printed its warning. *)
Definition warned {S : Type} (w : world S) (e : exn) : world S :=
  printed w ("⚠ Error testing model: " ++ exn_msg e).

(** A command of the script that leaves every file as it found it. *)
Definition keeps_files (fw : Framework) {A : Type} (c : M fw A) : Prop :=
  forall w, files (snd (c w)) = files w.

(** A framework call that returns from every hidden state. *)
Definition never_raises {S A : Type} (c : call S A) : Prop :=
  forall h, exists a h', c h = (Ok a, h').

(** The calls [create_demo_model] and [create_vocabulary] make all return. *)
Record build_calls_return (fw : Framework) : Prop := {
  bcr_Sequential : forall ls, never_raises (keras_Sequential fw ls);
  bcr_compile : forall m o l ms, never_raises (keras_compile fw m o l ms);
  bcr_build : forall m s, never_raises (keras_build fw m s);
  bcr_summary : forall m, never_raises (keras_summary fw m);
  bcr_concrete : forall m s, never_raises (tf_get_concrete_function fw m s);
  bcr_converter : forall fs, never_raises (lite_from_concrete_functions fw fs);
  bcr_convert : forall c s, never_raises (lite_convert fw c s);
  bcr_write : forall p d, never_raises (os_write fw p d)
}.

(** The ways a framework call made by [create_demo_model] can raise [e]
    when the function starts from hidden state [h0]: one case per call, each
    reached after the calls before it have returned. *)
Inductive build_failure (fw : Framework) (h0 : fw_state fw) (e : exn) : Prop :=
| fail_Sequential h :
    keras_Sequential fw model_layers h0 = (Raise e, h) ->
    build_failure fw h0 e
| fail_compile model h1 h :
    keras_Sequential fw model_layers h0 = (Ok model, h1) ->
    keras_compile fw model "adam" "sparse_categorical_crossentropy" ["accuracy"] h1
      = (Raise e, h) ->
    build_failure fw h0 e
| fail_build model h1 h2 h :
    keras_Sequential fw model_layers h0 = (Ok model, h1) ->
    keras_compile fw model "adam" "sparse_categorical_crossentropy" ["accuracy"] h1
      = (Ok tt, h2) ->
    keras_build fw model [None; Some max_length] h2 = (Raise e, h) ->
    build_failure fw h0 e
| fail_summary model h1 h2 h3 h :
    keras_Sequential fw model_layers h0 = (Ok model, h1) ->
    keras_compile fw model "adam" "sparse_categorical_crossentropy" ["accuracy"] h1
      = (Ok tt, h2) ->
    keras_build fw model [None; Some max_length] h2 = (Ok tt, h3) ->
    keras_summary fw model h3 = (Raise e, h) ->
    build_failure fw h0 e
| fail_concrete_function model h1 h2 h3 text h4 h :
    keras_Sequential fw model_layers h0 = (Ok model, h1) ->
    keras_compile fw model "adam" "sparse_categorical_crossentropy" ["accuracy"] h1
      = (Ok tt, h2) ->
    keras_build fw model [None; Some max_length] h2 = (Ok tt, h3) ->
    keras_summary fw model h3 = (Ok text, h4) ->
    tf_get_concrete_function fw model input_signature h4 = (Raise e, h) ->
    build_failure fw h0 e
| fail_converter model h1 h2 h3 text h4 func h5 h :
    keras_Sequential fw model_layers h0 = (Ok model, h1) ->
    keras_compile fw model "adam" "sparse_categorical_crossentropy" ["accuracy"] h1
      = (Ok tt, h2) ->
    keras_build fw model [None; Some max_length] h2 = (Ok tt, h3) ->
    keras_summary fw model h3 = (Ok text, h4) ->
    tf_get_concrete_function fw model input_signature h4 = (Ok func, h5) ->
    lite_from_concrete_functions fw [func] h5 = (Raise e, h) ->
    build_failure fw h0 e
| fail_convert model h1 h2 h3 text h4 func h5 conv h6 h :
    keras_Sequential fw model_layers h0 = (Ok model, h1) ->
    keras_compile fw model "adam" "sparse_categorical_crossentropy" ["accuracy"] h1
      = (Ok tt, h2) ->
    keras_build fw model [None; Some max_length] h2 = (Ok tt, h3) ->
    keras_summary fw model h3 = (Ok text, h4) ->
    tf_get_concrete_function fw model input_signature h4 = (Ok func, h5) ->
    lite_from_concrete_functions fw [func] h5 = (Ok conv, h6) ->
    lite_convert fw conv demo_settings h6 = (Raise e, h) ->
    build_failure fw h0 e
| fail_write model h1 h2 h3 text h4 func h5 conv h6 bytes h7 h :
    keras_Sequential fw model_layers h0 = (Ok model, h1) ->
    keras_compile fw model "adam" "sparse_categorical_crossentropy" ["accuracy"] h1
      = (Ok tt, h2) ->
    keras_build fw model [None; Some max_length] h2 = (Ok tt, h3) ->
    keras_summary fw model h3 = (Ok text, h4) ->
    tf_get_concrete_function fw model input_signature h4 = (Ok func, h5) ->
    lite_from_concrete_functions fw [func] h5 = (Ok conv, h6) ->
    lite_convert fw conv demo_settings h6 = (Ok bytes, h7) ->
    os_write fw model_path bytes h7 = (Raise e, h) ->
    build_failure fw h0 e.

(** ** Frameworks to run the script on *)

(** A framework whose every call returns: the hidden state is trivial, the
    converter yields four bytes, and the interpreter reports a (1, 128)
    input, a (1, 8) output, and an all-zero output row. *)
Definition ok {A : Type} (a : A) : call unit A := fun h => (Ok a, h).

Definition ideal_tflite : Interpreter_api unit unit :=
  {| lite_Interpreter := fun _ _ => ok tt;
     lite_allocate_tensors := fun _ => ok tt;
     lite_get_input_details := fun _ => ok [ {| td_index := 0; td_shape := [1; 128] |} ];
     lite_get_output_details := fun _ => ok [ {| td_index := 1; td_shape := [1; 8] |} ];
     lite_set_tensor := fun _ _ _ => ok tt;
     lite_invoke := fun _ => ok tt;
     lite_get_tensor := fun _ _ =>
       ok {| nd_dtype := float32; nd_rows := [repeat (S754_zero false) 8] |} |}.

Definition ideal_fw : Framework :=
  {| fw_state := unit;
     fw_obj := unit;
     keras_Sequential := fun _ => ok tt;
     keras_compile := fun _ _ _ _ => ok tt;
     keras_build := fun _ _ => ok tt;
     keras_summary := fun _ => ok "Model: sequential";
     tf_get_concrete_function := fun _ _ => ok tt;
     lite_from_concrete_functions := fun _ => ok tt;
     lite_convert := fun _ _ => ok "TFL3";
     tflite := ideal_tflite;
     os_write := fun _ _ => ok tt;
     fmt_int_array := fun s => "[" ++ Py.join " " (map Py.str s) ++ "]";
     fmt_float_array := fun fs => "[" ++ Py.join " " (map (fun _ => "0.") fs) ++ "]";
     fmt_megabytes := fun _ => "0.00" |}.

(** An interpreter that rejects every model file, as TensorFlow Lite does
    with a truncated or corrupted one. *)
Definition model_rejected : exn :=
  {| exn_class := "ValueError"; exn_msg := "Could not open the model file" |}.

Definition rejecting_tflite : Interpreter_api unit unit :=
  {| lite_Interpreter := fun _ _ h => (Raise model_rejected, h);
     lite_allocate_tensors := fun _ => ok tt;
     lite_get_input_details := fun _ => ok [];
     lite_get_output_details := fun _ => ok [];
     lite_set_tensor := fun _ _ _ => ok tt;
     lite_invoke := fun _ => ok tt;
     lite_get_tensor := fun _ _ => ok {| nd_dtype := float32; nd_rows := [] |} |}.

Definition rejecting_fw : Framework := with_tflite ideal_fw rejecting_tflite.

(** A framework whose converter meets an operator it cannot lower. *)
Definition unsupported_op : exn :=
  {| exn_class := "ConverterError"; exn_msg := "unsupported operator" |}.

Definition failing_convert_fw : Framework :=
  {| fw_state := unit;
     fw_obj := unit;
     keras_Sequential := fun _ => ok tt;
     keras_compile := fun _ _ _ _ => ok tt;
     keras_build := fun _ _ => ok tt;
     keras_summary := fun _ => ok "Model: sequential";
     tf_get_concrete_function := fun _ _ => ok tt;
     lite_from_concrete_functions := fun _ => ok tt;
     lite_convert := fun _ _ h => (Raise unsupported_op, h);
     tflite := ideal_tflite;
     os_write := fun _ _ => ok tt;
     fmt_int_array := fmt_int_array ideal_fw;
     fmt_float_array := fmt_float_array ideal_fw;
     fmt_megabytes := fmt_megabytes ideal_fw |}.

(** A fresh machine: nothing printed, no files. *)
Definition empty_world : world unit :=
  {| console := []; files := ∅; hidden := tt |}.

(** The worlds after one run of the vocabulary builder on the fresh
    machine, and after a second run that follows it. *)
Definition after_first_run : world unit :=
  snd (create_vocabulary ideal_fw empty_world).
Definition after_second_run : world unit :=
  snd (create_vocabulary ideal_fw after_first_run).

(** ** A build that returns *)

(** The framework calls of a run of [create_demo_model] that returns, from
    hidden state [h0] to hidden state [h]: the model is made of [layers],
    compiled and built for inputs of shape [dims], wrapped in a concrete
    function of signature [sig] and converted with the script's settings,
    and the operating system accepts [bytes], the converter's result, for
    the model file. *)
Inductive build_success (fw : Framework) (layers : list layer) (dims : list (option nat))
    (sig : TensorSpec) (h0 : fw_state fw) (bytes : string) (h : fw_state fw) : Prop :=
| build_returns model h1 h2 h3 text h4 func h5 conv h6 h7 :
    keras_Sequential fw layers h0 = (Ok model, h1) ->
    keras_compile fw model "adam" "sparse_categorical_crossentropy" ["accuracy"] h1
      = (Ok tt, h2) ->
    keras_build fw model dims h2 = (Ok tt, h3) ->
    keras_summary fw model h3 = (Ok text, h4) ->
    tf_get_concrete_function fw model sig h4 = (Ok func, h5) ->
    lite_from_concrete_functions fw [func] h5 = (Ok conv, h6) ->
    lite_convert fw conv demo_settings h6 = (Ok bytes, h7) ->
    os_write fw model_path bytes h7 = (Ok tt, h) ->
    build_success fw layers dims sig h0 bytes h.

(** The world after a run of [create_demo_model] on the fresh machine. *)
Definition after_model_build : world unit :=
  snd (create_demo_model ideal_fw empty_world).

(** A framework on which the vocabulary file cannot be written: the
    operating system refuses to open "vocab.txt" and accepts every other
    path. *)
Definition vocab_write_denied : exn :=
  {| exn_class := "PermissionError"; exn_msg := "Permission denied: vocab.txt" |}.

Definition readonly_vocab_fw : Framework :=
  {| fw_state := unit;
     fw_obj := unit;
     keras_Sequential := keras_Sequential ideal_fw;
     keras_compile := keras_compile ideal_fw;
     keras_build := keras_build ideal_fw;
     keras_summary := keras_summary ideal_fw;
     tf_get_concrete_function := tf_get_concrete_function ideal_fw;
     lite_from_concrete_functions := lite_from_concrete_functions ideal_fw;
     lite_convert := lite_convert ideal_fw;
     tflite := ideal_tflite;
     os_write := fun path _ h =>
       if String.eqb path "vocab.txt" then (Raise vocab_write_denied, h)
       else (Ok tt, h);
     fmt_int_array := fmt_int_array ideal_fw;
     fmt_float_array := fmt_float_array ideal_fw;
     fmt_megabytes := fmt_megabytes ideal_fw |}.

(** The world after a run of [main] on the fresh machine. *)
Definition after_main : world unit := snd (main ideal_fw empty_world).

(** The world in which [main], run on the fresh machine with the read-only
    vocabulary file, has built the model. *)
Definition after_model_build_ro : world unit :=
  snd (create_demo_model readonly_vocab_fw (after_banner empty_world)).

(** An interpreter that loads the model but reports no input tensor. *)
Definition no_inputs_tflite : Interpreter_api unit unit :=
  {| lite_Interpreter := fun _ _ => ok tt;
     lite_allocate_tensors := fun _ => ok tt;
     lite_get_input_details := fun _ => ok [];
     lite_get_output_details := fun _ => ok [ {| td_index := 0; td_shape := [1; 8] |} ];
     lite_set_tensor := fun _ _ _ => ok tt;
     lite_invoke := fun _ => ok tt;
     lite_get_tensor := fun _ _ =>
       ok {| nd_dtype := float32; nd_rows := [repeat (S754_zero false) 8] |} |}.

Definition no_inputs_fw : Framework := with_tflite ideal_fw no_inputs_tflite.

(** ** Recording the calls on the interpreter *)

(** A call on the interpreter, with the arguments the script passes. *)
Inductive tflite_call :=
| call_Interpreter (model_path : string) (content : option string)
| call_allocate_tensors
| call_get_input_details
| call_get_output_details
| call_set_tensor (index : Z) (value : ndarray)
| call_invoke
| call_get_tensor (index : Z).

(** A framework call that also appends itself to a log kept beside the
    hidden state, whether it returns or raises; and one that leaves the log
    alone. *)
Definition traced {S A : Type} (ev : tflite_call) (c : call S A)
  : call (S * list tflite_call) A :=
  fun s => let '(r, h) := c (fst s) in (r, (h, (snd s ++ [ev])%list)).

Definition untraced {S A : Type} (c : call S A) : call (S * list tflite_call) A :=
  fun s => let '(r, h) := c (fst s) in (r, (h, snd s)).

Definition traced_tflite {S O : Type} (api : Interpreter_api S O)
  : Interpreter_api (S * list tflite_call) O :=
  {| lite_Interpreter := fun p c => traced (call_Interpreter p c) (lite_Interpreter api p c);
     lite_allocate_tensors := fun i => traced call_allocate_tensors (lite_allocate_tensors api i);
     lite_get_input_details := fun i =>
       traced call_get_input_details (lite_get_input_details api i);
     lite_get_output_details := fun i =>
       traced call_get_output_details (lite_get_output_details api i);
     lite_set_tensor := fun i k a => traced (call_set_tensor k a) (lite_set_tensor api i k a);
     lite_invoke := fun i => traced call_invoke (lite_invoke api i);
     lite_get_tensor := fun i k => traced (call_get_tensor k) (lite_get_tensor api i k) |}.

(** Any framework, with its interpreter calls recorded.  Every call behaves
    as in [fw]; the log is the only addition. *)
Definition traced_fw (fw : Framework) : Framework :=
  {| fw_state := fw_state fw * list tflite_call;
     fw_obj := fw_obj fw;
     keras_Sequential := fun ls => untraced (keras_Sequential fw ls);
     keras_compile := fun m o l ms => untraced (keras_compile fw m o l ms);
     keras_build := fun m s => untraced (keras_build fw m s);
     keras_summary := fun m => untraced (keras_summary fw m);
     tf_get_concrete_function := fun m s => untraced (tf_get_concrete_function fw m s);
     lite_from_concrete_functions := fun fs => untraced (lite_from_concrete_functions fw fs);
     lite_convert := fun c s => untraced (lite_convert fw c s);
     tflite := traced_tflite (tflite fw);
     os_write := fun p d => untraced (os_write fw p d);
     fmt_int_array := fmt_int_array fw;
     fmt_float_array := fmt_float_array fw;
     fmt_megabytes := fmt_megabytes fw |}.

(** A world of the recording framework without its log. *)
Definition erase_log {S : Type} (w : world (S * list tflite_call)) : world S :=
  {| console := console w; files := files w; hidden := fst (hidden w) |}.

(** The calls of a smoke test that runs to the end, for the tensor indices
    [i] and [o] the interpreter reports. *)
Definition smoke_test_protocol (path : string) (content : option string) (i o : Z)
  : list tflite_call :=
  [ call_Interpreter path content;
    call_allocate_tensors;
    call_get_input_details;
    call_get_output_details;
    call_set_tensor i sample_input;
    call_invoke;
    call_get_tensor o ].

(** The fresh machine of the recording [ideal_fw], with an empty log. *)
Definition empty_traced_world : world (unit * list tflite_call) :=
  {| console := []; files := ∅; hidden := (tt, []) |}.

(* ================================================================== *)
(** * The definitions at work *)
(* ================================================================== *)

Example str_numerals : map Py.str [0; 7; 42; 99; 4999] = ["0"; "7"; "42"; "99"; "4999"].
Proof. reflexivity. Qed.

Example range_bounds :
  Py.range 3 6 = [3; 4; 5] /\ Py.range 6 6 = [] /\ Py.range 7 6 = [].
Proof. repeat split; reflexivity. Qed.

Example split_lines_fields :
  Py.split_lines ("a" ++ Py.NL ++ "bc") = ["a"; "bc"] /\
  Py.split_lines ("a" ++ Py.NL) = ["a"; ""] /\
  Py.split_lines "" = [""].
Proof. repeat split; reflexivity. Qed.

Example join_fields : Py.join ", " ["1"; "128"] = "1, 128".
Proof. reflexivity. Qed.

Example build_small_vocab :
  build_vocab [("a", ["x"; "y"]); ("b", ["z"])] 6
  = ["x"; "y"; "z"; "token_3"; "token_4"; "token_5"].
Proof. reflexivity. Qed.

Example build_full_vocab :
  build_vocab [("a", ["x"; "y"]); ("b", ["z"])] 2 = ["x"; "y"; "z"].
Proof. reflexivity. Qed.

Example token_index_examples :
  token_index "token_185" = Some 185 /\ token_index "otp" = None.
Proof. split; reflexivity. Qed.

Example layer_shapes :
  layer_output_shape (Embedding 5000 32 128 "embedding") [1; 128] = Some [1; 128; 32] /\
  layer_output_shape (GlobalAveragePooling1D "pooling") [1; 128; 32] = Some [1; 32] /\
  layer_output_shape (GlobalAveragePooling1D "pooling") [1; 128] = None /\
  layer_output_shape (Dense 64 relu "dense1") [1; 32] = Some [1; 64].
Proof. repeat split; reflexivity. Qed.

Example float32_of_small_ints :
  map int_of_float32 (map float32_of_int [0; 1; 5; -3]%Z)
  = [Some 0; Some 1; Some 5; Some (-3)]%Z.
Proof. reflexivity. Qed.

(** 2^24 + 1 is the first int binary32 cannot hold. *)
Example float32_rounds :
  int_of_float32 (float32_of_int 16777217) = Some 16777216%Z.
Proof. reflexivity. Qed.

Example ideal_run_exits_0 : fst (script ideal_fw empty_world) = 0%Z.
Proof. reflexivity. Qed.

(* ================================================================== *)
(** * Lemmas on the Python fragment *)
(* ================================================================== *)

Section PyFacts.

Import Py.
Local Arguments String.append !_ _ / : simpl nomatch.

Lemma range_length a b : length (range a b) = b - a.
Proof. unfold range. apply length_seq. Qed.

Lemma range_empty a b : b <= a -> range a b = [].
Proof. intros H. unfold range. replace (b - a) with 0 by lia. reflexivity. Qed.

(** Appending one element per iteration is a map over the iterable. *)
Lemma for_in_append {A B : Type} (f : A -> B) (xs : list A) (init : list B) :
  for_in xs (fun acc x => append acc (f x)) init = (init ++ map f xs)%list.
Proof.
  unfold for_in, append. revert init.
  induction xs as [|x xs IH]; intros init; simpl.
  - symmetry. apply app_nil_r.
  - rewrite IH, <- app_assoc. reflexivity.
Qed.

(** Extending by one list per iteration concatenates them. *)
Lemma for_in_extend {K A : Type} (kvs : list (K * list A)) (init : list A) :
  for_in kvs (fun acc '(_, ws) => extend acc ws) init
  = (init ++ concat (map snd kvs))%list.
Proof.
  unfold for_in, extend. revert init.
  induction kvs as [|[k ws] kvs IH]; intros init; simpl.
  - symmetry. apply app_nil_r.
  - rewrite IH, app_assoc. reflexivity.
Qed.

Lemma string_app_nil_r s : s ++ "" = s.
Proof. induction s as [|c s IH]; simpl; congruence. Qed.

Lemma string_app_assoc s t u : (s ++ t) ++ u = s ++ (t ++ u).
Proof. induction s as [|c s IH]; simpl; congruence. Qed.

Lemma rev_string_rev_string s : forall a b,
  rev_string a (rev_string b s) = rev_string (s ++ a) b.
Proof.
  induction s as [|c s IH]; intros a b; simpl; [reflexivity|].
  rewrite IH. reflexivity.
Qed.

Lemma rev_string_involutive s : rev_string "" (rev_string "" s) = s.
Proof.
  rewrite rev_string_rev_string. simpl. apply string_app_nil_r.
Qed.

Lemma rev_string_acc s : forall acc, rev_string acc s = rev_string "" s ++ acc.
Proof.
  induction s as [|c s IH]; intros acc; simpl; [reflexivity|].
  rewrite (IH (String c acc)), (IH (String c "")), string_app_assoc.
  reflexivity.
Qed.

Lemma rev_string_app s t :
  rev_string "" (s ++ t) = rev_string "" t ++ rev_string "" s.
Proof.
  induction s as [|c s IH]; simpl.
  - symmetry. apply string_app_nil_r.
  - rewrite (rev_string_acc (s ++ t)), (rev_string_acc s), IH.
    apply string_app_assoc.
Qed.

Lemma prefix_app p s : String.prefix p (p ++ s) = true.
Proof.
  induction p as [|c p IH]; simpl.
  - destruct s; reflexivity.
  - destruct (ascii_dec c c); [exact IH | congruence].
Qed.

(** A string ends with whatever was appended to it last. *)
Lemma endswith_app s p : endswith (s ++ p) p = true.
Proof. unfold endswith. rewrite rev_string_app. apply prefix_app. Qed.

Lemma count_LF_app s t : count_LF (s ++ t) = count_LF s + count_LF t.
Proof. induction s as [|c s IH]; simpl; [reflexivity | rewrite IH; lia]. Qed.

Lemma count_LF_no_LF s : no_LF s = true -> count_LF s = 0.
Proof.
  induction s as [|c s IH]; simpl; [reflexivity|].
  intros [Hc Hs]%andb_prop. rewrite (IH Hs).
  destruct (Ascii.eqb c LF); [discriminate | reflexivity].
Qed.

Lemma split_lines_aux_field s : forall cur rest,
  no_LF s = true ->
  split_lines_aux cur (s ++ rest) = split_lines_aux (rev_string cur s) rest.
Proof.
  induction s as [|c s IH]; intros cur rest H; simpl in *; [reflexivity|].
  apply andb_prop in H as [Hc Hs].
  destruct (Ascii.eqb c LF); [discriminate|]. apply IH, Hs.
Qed.

Lemma split_lines_field s : no_LF s = true -> split_lines s = [s].
Proof.
  intros H. unfold split_lines.
  rewrite <- (string_app_nil_r s) at 1.
  rewrite split_lines_aux_field by exact H. simpl.
  rewrite rev_string_involutive. reflexivity.
Qed.

Lemma split_lines_cons s rest :
  no_LF s = true -> split_lines (s ++ NL ++ rest) = s :: split_lines rest.
Proof.
  intros H. unfold split_lines.
  rewrite split_lines_aux_field by exact H. simpl.
  rewrite rev_string_involutive. reflexivity.
Qed.

(** Splitting a join gives the joined fields back. *)
Lemma split_lines_join l :
  l <> [] -> forallb no_LF l = true -> split_lines (join NL l) = l.
Proof.
  unfold join.
  induction l as [|x l IH]; intros Hne Hl; [congruence|].
  apply andb_prop in Hl as [Hx Hl].
  destruct l as [|y l].
  - simpl. apply split_lines_field, Hx.
  - change (String.concat NL (x :: y :: l))
      with (x ++ NL ++ String.concat NL (y :: l)).
    rewrite split_lines_cons by exact Hx.
    rewrite IH; [reflexivity | discriminate | exact Hl].
Qed.

(** A join of [n] fields without line feeds holds [n - 1] line feeds. *)
Lemma count_LF_join l :
  forallb no_LF l = true -> count_LF (join NL l) = length l - 1.
Proof.
  unfold join.
  induction l as [|x l IH]; intros Hl; [reflexivity|].
  apply andb_prop in Hl as [Hx Hl].
  destruct l as [|y l].
  - simpl. apply count_LF_no_LF, Hx.
  - change (String.concat NL (x :: y :: l))
      with (x ++ NL ++ String.concat NL (y :: l)).
    rewrite !count_LF_app, (count_LF_no_LF x Hx), (IH Hl). simpl. lia.
Qed.

Lemma join_snoc sep l x :
  l <> [] -> join sep (l ++ [x]) = join sep l ++ sep ++ x.
Proof.
  unfold join.
  induction l as [|y l IH]; intros Hne; [congruence|].
  destruct l as [|z l].
  - reflexivity.
  - change (String.concat sep ((y :: z :: l) ++ [x]))
      with (y ++ sep ++ String.concat sep ((z :: l) ++ [x])).
    rewrite IH by discriminate.
    change (String.concat sep (y :: z :: l))
      with (y ++ sep ++ String.concat sep (z :: l)).
    rewrite !string_app_assoc. reflexivity.
Qed.

(** [int(str(i)) == i]. *)
Lemma int_str i : int (str i) = Some i.
Proof.
  unfold int, str.
  destruct (Nat.to_uint i) eqn:E;
    [ assert (i = 0) as -> by (rewrite <- (Unsigned.of_to i), E; reflexivity);
      reflexivity
    | rewrite <- E, NilZero.usu by (rewrite E; discriminate);
      rewrite Unsigned.of_to; reflexivity .. ].
Qed.

End PyFacts.

(* ================================================================== *)
(** * The vocabulary builder *)
(* ================================================================== *)

Section VocabularyFacts.

Implicit Types (kws : list (string * list string)) (capacity : nat).
Local Arguments String.append !_ _ / : simpl nomatch.

Lemma flatten_keywords_concat kws :
  flatten_keywords kws = concat (map snd kws).
Proof. unfold flatten_keywords. apply (for_in_extend kws []). Qed.

Lemma pad_vocab_spec capacity (v : list string) :
  pad_vocab capacity v = (v ++ map token (Py.range (length v) capacity))%list.
Proof. unfold pad_vocab. apply for_in_append. Qed.

Lemma build_vocab_spec kws capacity :
  build_vocab kws capacity
  = (flatten_keywords kws
     ++ map token (Py.range (length (flatten_keywords kws)) capacity))%list.
Proof. unfold build_vocab. apply pad_vocab_spec. Qed.

Lemma build_vocab_length kws capacity :
  length (build_vocab kws capacity)
  = Nat.max (length (flatten_keywords kws)) capacity.
Proof.
  rewrite build_vocab_spec, length_app, length_map, range_length. lia.
Qed.

(** Nothing is appended to a list that already fills the capacity. *)
Lemma build_vocab_full kws capacity :
  capacity <= length (flatten_keywords kws) ->
  build_vocab kws capacity = flatten_keywords kws.
Proof.
  intros H. rewrite build_vocab_spec, range_empty by exact H.
  apply app_nil_r.
Qed.

Lemma build_vocab_keyword kws capacity i :
  i < length (flatten_keywords kws) ->
  build_vocab kws capacity !! i = flatten_keywords kws !! i.
Proof. intros H. rewrite build_vocab_spec. apply lookup_app_l, H. Qed.

Lemma build_vocab_filler kws capacity i :
  length (flatten_keywords kws) <= i -> i < capacity ->
  build_vocab kws capacity !! i = Some (token i).
Proof.
  intros Hlo Hhi. rewrite build_vocab_spec, lookup_app_r by exact Hlo.
  change (map token ?l) with (token <$> l). rewrite list_lookup_fmap.
  unfold Py.range. rewrite lookup_seq_lt by lia. simpl. f_equal. f_equal. lia.
Qed.

Lemma token_index_token i : token_index (token i) = Some i.
Proof.
  unfold token_index, token, Py.startswith. simpl.
  replace (String.prefix "" (Py.str i)) with true
    by (destruct (Py.str i); reflexivity).
  apply int_str.
Qed.

Lemma keywords_count : length (flatten_keywords keywords) = 185.
Proof. reflexivity. Qed.

Lemma vocab_length : length vocab = 5000.
Proof. unfold vocab. rewrite build_vocab_length. reflexivity. Qed.

Lemma vocab_no_LF : forallb Py.no_LF vocab = true.
Proof. vm_compute. reflexivity. Qed.

Lemma vocab_nonempty : vocab <> [].
Proof. intros H. apply (f_equal length) in H. rewrite vocab_length in H. discriminate. Qed.

(** The file read back line by line is the token list. *)
Lemma split_lines_vocab_text : Py.split_lines vocab_text = vocab.
Proof. apply split_lines_join; [apply vocab_nonempty | apply vocab_no_LF]. Qed.

Lemma line_count_vocab_text : line_count vocab_text = 5000.
Proof. unfold line_count. rewrite split_lines_vocab_text. apply vocab_length. Qed.

Lemma vocab_last : vocab = (firstn 4999 vocab ++ [token 4999])%list.
Proof. vm_compute. reflexivity. Qed.

End VocabularyFacts.

(* ================================================================== *)
(** * Running the script *)
(* ================================================================== *)

Create HintDb keeps.

Section ScriptFacts.

Variable fw : Framework.
Implicit Types (w : world (fw_state fw)) (e : exn).

Lemma bind_Ok {A B} (c : M fw A) (k : A -> M fw B) w a w' :
  c w = (Ok a, w') -> bind c k w = k a w'.
Proof. unfold bind. intros ->. reflexivity. Qed.

Lemma bind_Raise {A B} (c : M fw A) (k : A -> M fw B) w e w' :
  c w = (Raise e, w') -> bind c k w = (Raise e, w').
Proof. unfold bind. intros ->. reflexivity. Qed.

(** Printing changes the console only. *)
Lemma after_prints_files {S} (ls : list string) (w : world S) :
  files (fold_left printed ls w) = files w.
Proof. revert w. induction ls as [|l ls IH]; intros w; simpl; [|rewrite IH]; reflexivity. Qed.

Lemma after_prints_hidden {S} (ls : list string) (w : world S) :
  hidden (fold_left printed ls w) = hidden w.
Proof. revert w. induction ls as [|l ls IH]; intros w; simpl; [|rewrite IH]; reflexivity. Qed.

Lemma after_prints_console {S} (ls : list string) (w : world S) :
  console (fold_left printed ls w) = (console w ++ ls)%list.
Proof.
  revert w. induction ls as [|l ls IH]; intros w; simpl.
  - symmetry. apply app_nil_r.
  - rewrite IH. simpl. rewrite <- app_assoc. reflexivity.
Qed.

(** ** Commands that leave the files alone *)

Lemma keeps_files_ret {A} (a : A) : keeps_files fw (ret a).
Proof. intros w. reflexivity. Qed.

Lemma keeps_files_raise {A} e : keeps_files fw (@raise fw A e).
Proof. intros w. reflexivity. Qed.

Lemma keeps_files_print s : keeps_files fw (@print fw s).
Proof. intros w. reflexivity. Qed.

Lemma keeps_files_lift {A} (c : call (fw_state fw) A) : keeps_files fw (lift c).
Proof. intros w. unfold lift. destruct (c (hidden w)). reflexivity. Qed.

Lemma keeps_files_item0 {A} (l : list A) : keeps_files fw (@item0 fw A l).
Proof. destruct l; [apply keeps_files_raise | apply keeps_files_ret]. Qed.

Lemma keeps_files_bind {A B} (c : M fw A) (k : A -> M fw B) :
  keeps_files fw c -> (forall a, keeps_files fw (k a)) -> keeps_files fw (bind c k).
Proof.
  intros Hc Hk w. unfold bind. specialize (Hc w).
  destruct (c w) as [[a|e] w']; simpl in *; [rewrite Hk|]; exact Hc.
Qed.

Lemma keeps_files_try {A} (body : M fw A) (handler : exn -> M fw A) :
  keeps_files fw body -> (forall e, keeps_files fw (handler e)) ->
  keeps_files fw (try_except body handler).
Proof.
  intros Hb Hh w. unfold try_except. specialize (Hb w).
  destruct (body w) as [[a|e] w']; simpl in *; [|rewrite Hh]; exact Hb.
Qed.

Lemma keeps_files_load {A} (c : option string -> call (fw_state fw) A) path :
  keeps_files fw (fun w => lift (c (files w !! path)) w).
Proof. intros w. apply keeps_files_lift. Qed.

Local Hint Resolve keeps_files_ret keeps_files_raise keeps_files_print
  keeps_files_lift keeps_files_item0 keeps_files_load : keeps.

Ltac keeps :=
  repeat first
    [ apply keeps_files_bind; [| intros ?]
    | apply keeps_files_try; [| intros ?]
    | solve [auto with keeps] ].

Lemma test_model_body_keeps_files path : keeps_files fw (test_model_body fw path).
Proof. unfold test_model_body. keeps. Qed.

Lemma test_model_keeps_files path : keeps_files fw (test_model fw path).
Proof. unfold test_model. keeps. Qed.

(** ** [test_model] *)

(** The [try] statement of [test_model], outcome by outcome. *)
Lemma test_model_run path w :
  test_model fw path w =
    match test_model_body fw path (at_try w) with
    | (Ok _, w1) => (Ok tt, w1)
    | (Raise e, w1) => (Ok tt, warned w1 e)
    end.
Proof.
  unfold test_model, bind, try_except, print. fold (at_try w).
  destruct (test_model_body fw path (at_try w)) as [[[]|e] w1]; reflexivity.
Qed.

Lemma test_model_returns path w :
  exists w', test_model fw path w = (Ok tt, w') /\ files w' = files w.
Proof.
  exists (snd (test_model fw path w)). split.
  - rewrite test_model_run.
    destruct (test_model_body fw path (at_try w)) as [[[]|e] w1]; reflexivity.
  - apply test_model_keeps_files.
Qed.

(** ** [create_vocabulary] *)

Lemma create_vocabulary_with_run kws capacity w :
  create_vocabulary_with fw kws capacity w =
    let text := Py.join Py.NL (build_vocab kws capacity) in
    let w0 := printed w (Py.NL ++ "Creating vocabulary file...") in
    match os_write fw vocab_path text (hidden w) with
    | (Ok _, h) =>
        (Ok vocab_path,
         fold_left printed
           [ "✓ Vocabulary saved to: " ++ vocab_path;
             "  Size: " ++ Py.str (length (build_vocab kws capacity)) ++ " tokens" ]
           {| console := console w0;
              files := <[vocab_path := text]> (files w);
              hidden := h |})
    | (Raise e, h) =>
        (Raise e, {| console := console w0; files := files w; hidden := h |})
    end.
Proof.
  unfold create_vocabulary_with, write_file, bind, lift, print, ret.
  cbv zeta. cbn [hidden files console printed].
  destruct (os_write fw vocab_path _ (hidden w)) as [[[]|e] h]; reflexivity.
Qed.

(** A run of the vocabulary builder that returns has put the joined
    token list in the vocabulary file. *)
Lemma create_vocabulary_with_file kws capacity w p w' :
  create_vocabulary_with fw kws capacity w = (Ok p, w') ->
  p = vocab_path /\
  files w' = <[vocab_path := Py.join Py.NL (build_vocab kws capacity)]> (files w).
Proof.
  rewrite create_vocabulary_with_run. cbv zeta.
  destruct (os_write fw vocab_path _ (hidden w)) as [[[]|e] h]; [|discriminate].
  intros [= <- <-]. split; reflexivity.
Qed.

Lemma create_vocabulary_file w p w' :
  create_vocabulary fw w = (Ok p, w') ->
  files w' !! vocab_path = Some vocab_text.
Proof.
  intros H. apply create_vocabulary_with_file in H as [_ ->].
  exact (lookup_insert_eq (files w) vocab_path
           (Py.join Py.NL (build_vocab keywords 5000))).
Qed.

End ScriptFacts.

Section BuilderFacts.

Variable fw : Framework.
Implicit Types (w : world (fw_state fw)) (e : exn).

Ltac unfold_builder :=
  unfold create_demo_model, create_demo_model_with, write_file, getsize,
    bind, lift, print, ret;
  change (demo_layers vocab_size embedding_dim max_length num_categories)
    with model_layers;
  change (demo_signature max_length) with input_signature;
  cbn [hidden files console printed].

(** Every exception a framework call raises inside [create_demo_model]
    leaves the function unchanged. *)
Lemma build_failure_raises w e :
  build_failure fw (hidden w) e ->
  exists w', create_demo_model fw w = (Raise e, w').
Proof.
  intros H. unfold_builder.
  destruct H as
    [ h H1 | m h1 h H1 H2 | m h1 h2 h H1 H2 H3 | m h1 h2 h3 h H1 H2 H3 H4
    | m h1 h2 h3 t h4 h H1 H2 H3 H4 H5
    | m h1 h2 h3 t h4 f h5 h H1 H2 H3 H4 H5 H6
    | m h1 h2 h3 t h4 f h5 c h6 h H1 H2 H3 H4 H5 H6 H7
    | m h1 h2 h3 t h4 f h5 c h6 b h7 h H1 H2 H3 H4 H5 H6 H7 H8 ];
    rewrite H1; cbn [hidden files console printed];
    try (rewrite H2; cbn [hidden files console printed]);
    try (rewrite H3; cbn [hidden files console printed]);
    try (rewrite H4; cbn [hidden files console printed]);
    try (rewrite H5; cbn [hidden files console printed]);
    try (rewrite H6; cbn [hidden files console printed]);
    try (rewrite H7; cbn [hidden files console printed]);
    try (rewrite H8; cbn [hidden files console printed]);
    eexists; reflexivity.
Qed.

(** Conversely, [create_demo_model] raises nothing of its own: the size
    query that follows a successful write finds the file. *)
Lemma raises_build_failure w e w' :
  create_demo_model fw w = (Raise e, w') ->
  build_failure fw (hidden w) e.
Proof.
  unfold_builder.
  destruct (keras_Sequential fw model_layers (hidden w)) as [[m|e1] h1] eqn:H1;
    [| intros [= <- _]; eapply fail_Sequential; eassumption ].
  cbn [hidden files console printed].
  destruct (keras_compile fw m _ _ _ h1) as [[[]|e2] h2] eqn:H2;
    [| intros [= <- _]; eapply fail_compile; eassumption ].
  cbn [hidden files console printed].
  destruct (keras_build fw m _ h2) as [[[]|e3] h3] eqn:H3;
    [| intros [= <- _]; eapply fail_build; eassumption ].
  cbn [hidden files console printed].
  destruct (keras_summary fw m h3) as [[t|e4] h4] eqn:H4;
    [| intros [= <- _]; eapply fail_summary; eassumption ].
  cbn [hidden files console printed].
  destruct (tf_get_concrete_function fw m input_signature h4) as [[f|e5] h5] eqn:H5;
    [| intros [= <- _]; eapply fail_concrete_function; eassumption ].
  cbn [hidden files console printed].
  destruct (lite_from_concrete_functions fw [f] h5) as [[c|e6] h6] eqn:H6;
    [| intros [= <- _]; eapply fail_converter; eassumption ].
  cbn [hidden files console printed].
  destruct (lite_convert fw c demo_settings h6) as [[b|e7] h7] eqn:H7;
    [| intros [= <- _]; eapply fail_convert; eassumption ].
  cbn [hidden files console printed].
  destruct (os_write fw model_path b h7) as [[[]|e8] h8] eqn:H8;
    [| intros [= <- _]; eapply fail_write; eassumption ].
  cbn [hidden files console printed].
  rewrite lookup_insert_eq. discriminate.
Qed.

(** [main], call by call. *)
Lemma main_with_run v d m c kws capacity w :
  main_with fw v d m c kws capacity w =
    match create_demo_model_with fw v d m c (after_banner w) with
    | (Raise e, w1) => (Raise e, w1)
    | (Ok mp, w1) =>
        match create_vocabulary_with fw kws capacity w1 with
        | (Raise e, w2) => (Raise e, w2)
        | (Ok vp, w2) =>
            match test_model fw mp w2 with
            | (Raise e, w3) => (Raise e, w3)
            | (Ok _, w3) => (Ok tt, fold_left printed (footer_lines mp vp) w3)
            end
        end
    end.
Proof.
  unfold main_with.
  repeat (rewrite (bind_Ok fw (print _) _ _ tt _ eq_refl)).
  change (printed _ "") with (after_banner w).
  unfold bind at 1.
  destruct (create_demo_model_with fw v d m c (after_banner w)) as [[mp|e] w1];
    [|reflexivity].
  unfold bind at 1.
  destruct (create_vocabulary_with fw kws capacity w1) as [[vp|e] w2];
    [|reflexivity].
  unfold bind at 1.
  destruct (test_model fw mp w2) as [[[]|e] w3]; [|reflexivity].
  reflexivity.
Qed.

End BuilderFacts.

(* ================================================================== *)
(** * The specification's claims *)
(* ================================================================== *)

(** ** Vocabulary size *)

(** C1.  Whenever the operating system accepts the write, a run of the
    vocabulary builder over any keyword dict returns and leaves the joined
    token list in the vocabulary file.  If the flattened keyword lists hold
    at most 5000 entries, filler tokens bring the count to exactly 5000;
    if they hold more, nothing is appended, nothing is raised, and the
    count exceeds 5000.  With the keyword lists of the script the count,
    and the line count of the file, is 5000. *)
Theorem vocabulary_size fw (kws : list (string * list string))
    (w : world (fw_state fw)) (h : fw_state fw) :
  os_write fw vocab_path (Py.join Py.NL (build_vocab kws 5000)) (hidden w) = (Ok tt, h) ->
  exists w',
    create_vocabulary_with fw kws 5000 w = (Ok vocab_path, w') /\
    files w' !! vocab_path = Some (Py.join Py.NL (build_vocab kws 5000)) /\
    ( ( length (flatten_keywords kws) <= 5000 /\
        build_vocab kws 5000
        = (flatten_keywords kws
           ++ map token (Py.range (length (flatten_keywords kws)) 5000))%list /\
        length (build_vocab kws 5000) = 5000 )
      \/
      ( 5000 < length (flatten_keywords kws) /\
        build_vocab kws 5000 = flatten_keywords kws /\
        5000 < length (build_vocab kws 5000) ) ) /\
    length vocab = 5000 /\
    line_count vocab_text = 5000.
Proof.
  intros Hw.
  pose proof (create_vocabulary_with_run fw kws 5000 w) as Hrun.
  cbv zeta in Hrun. rewrite Hw in Hrun.
  eexists. split; [exact Hrun|]. split.
  { rewrite after_prints_files. cbn [files]. apply lookup_insert_eq. }
  split; [| split; [apply vocab_length | apply line_count_vocab_text]].
  destruct (Nat.le_gt_cases (length (flatten_keywords kws)) 5000) as [Hle|Hgt].
  - left. split; [exact Hle|]. split; [apply build_vocab_spec|].
    rewrite build_vocab_length. lia.
  - right. split; [exact Hgt|].
    rewrite build_vocab_full by lia. split; [reflexivity | exact Hgt].
Qed.

Lemma vocabulary_size_witness :
  os_write ideal_fw vocab_path (Py.join Py.NL (build_vocab keywords 5000))
    (hidden empty_world) = (Ok tt, tt)
  /\ exists w',
       create_vocabulary_with ideal_fw keywords 5000 empty_world = (Ok vocab_path, w') /\
       files w' !! vocab_path = Some (Py.join Py.NL (build_vocab keywords 5000)) /\
       ( ( length (flatten_keywords keywords) <= 5000 /\
           build_vocab keywords 5000
           = (flatten_keywords keywords
              ++ map token (Py.range (length (flatten_keywords keywords)) 5000))%list /\
           length (build_vocab keywords 5000) = 5000 )
         \/
         ( 5000 < length (flatten_keywords keywords) /\
           build_vocab keywords 5000 = flatten_keywords keywords /\
           5000 < length (build_vocab keywords 5000) ) ) /\
       length vocab = 5000 /\
       line_count vocab_text = 5000.
Proof.
  split; [reflexivity|].
  apply (vocabulary_size ideal_fw keywords empty_world tt). reflexivity.
Defined.

(** An oversized keyword dict: 5001 entries go in, 5001 come out. *)
Example oversized_keywords :
  length (build_vocab [("bulk", repeat "x" (5000 + 1))] 5000) = 5000 + 1.
Proof. rewrite build_vocab_length. reflexivity. Qed.

(** ** The smoke test *)

(** C2.  [test_model] returns normally from every world, for every model
    path and every behaviour of the interpreter: either its [try] block
    ran to the end, or the block raised and the handler printed the
    warning.  It leaves the files alone, and the exit status of the script
    is the same whatever interpreter it is run with. *)
Theorem smoke_test_never_raises fw (path : string) (w : world (fw_state fw)) :
  (exists w',
     test_model fw path w = (Ok tt, w') /\
     files w' = files w /\
     ( (exists w1, test_model_body fw path (at_try w) = (Ok tt, w1) /\ w' = w1)
       \/
       (exists e w1, test_model_body fw path (at_try w) = (Raise e, w1) /\
                     w' = warned w1 e) ))
  /\
  (forall api (w0 : world (fw_state fw)),
     fst (script (with_tflite fw api) w0) = fst (script fw w0)).
Proof.
  split.
  - exists (snd (test_model fw path w)).
    split; [| split; [apply test_model_keeps_files|]];
      rewrite test_model_run;
      destruct (test_model_body fw path (at_try w)) as [[[]|e] w1] eqn:Hbody;
      try reflexivity.
    + left. exists w1. split; reflexivity.
    + right. exists e, w1. split; reflexivity.
  - intros api w0. unfold script, main. rewrite !main_with_run.
    change (create_demo_model_with (with_tflite fw api))
      with (create_demo_model_with fw).
    change (create_vocabulary_with (with_tflite fw api))
      with (create_vocabulary_with fw).
    change (fw_state (with_tflite fw api)) with (fw_state fw).
    destruct (create_demo_model_with fw _ _ _ _ (after_banner w0)) as [[mp|e] w1];
      [|reflexivity].
    destruct (create_vocabulary_with fw keywords 5000 w1) as [[vp|e] w2];
      [|reflexivity].
    destruct (test_model_returns (with_tflite fw api) mp w2) as (w3 & -> & _).
    destruct (test_model_returns fw mp w2) as (w3' & -> & _).
    reflexivity.
Qed.

(** The interpreter rejects the model file: the run prints the warning,
    goes on to the closing instructions and exits with status 0. *)
Example smoke_test_rejected_model :
  fst (script rejecting_fw empty_world) = 0%Z /\
  console (snd (test_model rejecting_fw model_path empty_world))
  = [ Py.NL ++ "Testing model...";
      "⚠ Error testing model: Could not open the model file" ].
Proof. split; reflexivity. Qed.

(** ** Order of the vocabulary *)

(** C3.  In every run of the vocabulary builder that returns, the lines of
    the vocabulary file are the seven hand-authored lists in the order of
    the dict (special tokens, otp, banking, finance, offers, coupons,
    common), then the numerals "0" .. "99", then the fillers "token_185"
    .. "token_4999": every line [i] from 185 up to 4999 is the text
    "token_" followed by the decimal numeral of [i].  The file has 5000
    lines; the first two are "[PAD]" and "[UNK]", and each category starts
    where the ones before it end. *)
Theorem vocabulary_order fw (w : world (fw_state fw)) p w' (i : nat) :
  create_vocabulary fw w = (Ok p, w') ->
  185 <= i ->
  i < 5000 ->
  exists text,
    files w' !! vocab_path = Some text /\
    map fst keywords
    = ["special_tokens"; "otp"; "banking"; "finance"; "offers"; "coupons";
       "common"; "numbers"] /\
    Py.split_lines text
    = (concat (map snd (firstn 7 keywords))
       ++ map Py.str (Py.range 0 100)
       ++ map (fun k => ("token_" ++ Py.str k)%string) (Py.range 185 5000))%list /\
    map Py.str (Py.range 0 100) !! 0 = Some "0" /\
    map Py.str (Py.range 0 100) !! 99 = Some "99" /\
    length (map Py.str (Py.range 0 100)) = 100 /\
    firstn 2 (Py.split_lines text) = ["[PAD]"; "[UNK]"] /\
    Py.split_lines text !! i = Some ("token_" ++ Py.str i) /\
    map (fun k => Py.split_lines text !! k)
        [0; 1; 2; 12; 22; 33; 44; 52; 85; 184; 185; 186; 4999]
    = map Some
        ["[PAD]"; "[UNK]"; "otp"; "bank"; "payment"; "offer"; "coupon"; "dear";
         "0"; "99"; "token_185"; "token_186"; "token_4999"] /\
    length (Py.split_lines text) = 5000.
Proof.
  intros Hrun Hlo Hhi. exists vocab_text.
  split; [apply (create_vocabulary_file fw w p w' Hrun)|].
  split; [reflexivity|].
  rewrite split_lines_vocab_text.
  split.
  { unfold vocab. rewrite build_vocab_spec, flatten_keywords_concat.
    rewrite app_assoc. reflexivity. }
  do 3 (split; [reflexivity|]).
  split; [vm_compute; reflexivity|].
  split.
  { unfold vocab. rewrite build_vocab_filler; [reflexivity | | exact Hhi].
    rewrite keywords_count. exact Hlo. }
  split; [vm_compute; reflexivity | apply vocab_length].
Qed.

Lemma vocabulary_order_witness :
  create_vocabulary ideal_fw empty_world = (Ok vocab_path, after_first_run)
  /\ 185 <= 3000
  /\ 3000 < 5000
  /\ exists text,
       files after_first_run !! vocab_path = Some text /\
       Py.split_lines text !! 3000 = Some "token_3000" /\
       firstn 2 (Py.split_lines text) = ["[PAD]"; "[UNK]"] /\
       length (Py.split_lines text) = 5000.
Proof.
  assert (create_vocabulary ideal_fw empty_world = (Ok vocab_path, after_first_run))
    as Hrun by reflexivity.
  assert (185 <= 3000) as Hlo by lia.
  assert (3000 < 5000) as Hhi by lia.
  split; [exact Hrun|]. split; [exact Hlo|]. split; [exact Hhi|].
  destruct (vocabulary_order ideal_fw empty_world vocab_path after_first_run 3000
              Hrun Hlo Hhi)
    as (text & Hfile & _ & _ & _ & _ & _ & Hfirst & Hline & _ & Hlen).
  exists text. split; [exact Hfile|]. split; [exact Hline|].
  split; [exact Hfirst | exact Hlen].
Defined.

(** ** Declared tensor shapes *)

(** What a run of [create_demo_model] that returns has asked of the
    framework, and what it has left in the model file. *)
Lemma create_demo_model_with_success fw v d m c (w : world (fw_state fw)) p w' :
  create_demo_model_with fw v d m c w = (Ok p, w') ->
  p = model_path /\
  exists bytes,
    build_success fw (demo_layers v d m c) [None; Some m] (demo_signature m)
      (hidden w) bytes (hidden w') /\
    files w' !! model_path = Some bytes.
Proof.
  unfold create_demo_model_with, write_file, getsize, bind, lift, print, ret.
  cbn [hidden files console printed].
  destruct (keras_Sequential fw _ (hidden w)) as [[model|e1] h1] eqn:H1;
    [|discriminate].
  cbn [hidden files console printed].
  destruct (keras_compile fw model _ _ _ h1) as [[[]|e2] h2] eqn:H2; [|discriminate].
  cbn [hidden files console printed].
  destruct (keras_build fw model _ h2) as [[[]|e3] h3] eqn:H3; [|discriminate].
  cbn [hidden files console printed].
  destruct (keras_summary fw model h3) as [[text|e4] h4] eqn:H4; [|discriminate].
  cbn [hidden files console printed].
  destruct (tf_get_concrete_function fw model _ h4) as [[func|e5] h5] eqn:H5;
    [|discriminate].
  cbn [hidden files console printed].
  destruct (lite_from_concrete_functions fw [func] h5) as [[conv|e6] h6] eqn:H6;
    [|discriminate].
  cbn [hidden files console printed].
  destruct (lite_convert fw conv demo_settings h6) as [[bytes|e7] h7] eqn:H7;
    [|discriminate].
  cbn [hidden files console printed].
  destruct (os_write fw model_path bytes h7) as [[[]|e8] h8] eqn:H8; [|discriminate].
  cbn [hidden files console printed].
  rewrite lookup_insert_eq. intros Hrun.
  assert (p = model_path) as -> by congruence.
  assert (files w' = <[model_path := bytes]> (files w) /\ hidden w' = h8)
    as [Hfiles Hhidden].
  { assert (snd (@Ok string model_path, w') = w') as <- by reflexivity.
    rewrite <- Hrun. split; reflexivity. }
  split; [reflexivity|]. exists bytes. split.
  - rewrite Hhidden.
    exact (build_returns fw _ _ _ _ _ _ model h1 h2 h3 text h4 func h5 conv h6 h7
             H1 H2 H3 H4 H5 H6 H7 H8).
  - rewrite Hfiles. apply lookup_insert_eq.
Qed.

(** C4.  A run of [create_demo_model] that returns has made its model of
    the script's layer list, wrapped it in a concrete function of the
    export signature, converted that function and left the converter's
    bytes in the model file.  The input shape this model declares, the
    shape of the export signature, is one row of [max_length] float32
    values; the output shape, what the layer list yields on such an input,
    is one row of [num_categories] values, the unit count of the last
    dense layer.  With the script's parameters these are (1, 128) and
    (1, 8). *)
Theorem declared_shapes fw v d m c (w : world (fw_state fw)) p w' :
  create_demo_model_with fw v d m c w = (Ok p, w') ->
  (exists bytes,
     build_success fw (demo_layers v d m c) [None; Some m] (demo_signature m)
       (hidden w) bytes (hidden w') /\
     files w' !! p = Some bytes) /\
  spec_shape (demo_signature m) = [1; m] /\
  spec_dtype (demo_signature m) = float32 /\
  last (demo_layers v d m c) = Some (Dense c softmax "output") /\
  sequential_output_shape (demo_layers v d m c) (spec_shape (demo_signature m))
  = Some [1; c] /\
  create_demo_model fw = create_demo_model_with fw 5000 32 128 8 /\
  declared_input_shape = spec_shape (demo_signature 128) /\
  declared_output_shape
  = sequential_output_shape (demo_layers 5000 32 128 8) (spec_shape (demo_signature 128)) /\
  declared_input_shape = [1; 128] /\
  declared_output_shape = Some [1; 8].
Proof.
  intros Hrun.
  destruct (create_demo_model_with_success fw v d m c w p w' Hrun)
    as (-> & bytes & Hbuild & Hfile).
  split; [exists bytes; split; [exact Hbuild | exact Hfile]|].
  repeat split; reflexivity.
Qed.

Lemma declared_shapes_witness :
  create_demo_model_with ideal_fw 5000 32 128 8 empty_world
  = (Ok model_path, after_model_build)
  /\ (exists bytes,
        build_success ideal_fw (demo_layers 5000 32 128 8) [None; Some 128]
          (demo_signature 128) (hidden empty_world) bytes (hidden after_model_build) /\
        files after_model_build !! model_path = Some bytes)
  /\ sequential_output_shape (demo_layers 5000 32 128 8) (spec_shape (demo_signature 128))
     = Some [1; 8].
Proof.
  assert (create_demo_model_with ideal_fw 5000 32 128 8 empty_world
          = (Ok model_path, after_model_build)) as Hrun by reflexivity.
  split; [exact Hrun|].
  destruct (declared_shapes ideal_fw 5000 32 128 8 empty_world model_path
              after_model_build Hrun) as (Hbuild & _ & _ & _ & Hout & _).
  split; [exact Hbuild | exact Hout].
Defined.

(** ** Fatal build errors *)

(** C5.  Whatever a framework call inside [create_demo_model] raises,
    [create_demo_model] raises, [main] raises the same exception from the
    very world in which [create_demo_model] stopped (nothing is retried and
    no later step runs), and the process exits with status 1. *)
Theorem build_errors_are_fatal fw (w : world (fw_state fw)) (e : exn) :
  build_failure fw (hidden w) e ->
  exists w',
    create_demo_model fw (after_banner w) = (Raise e, w') /\
    main fw w = (Raise e, w') /\
    script fw w = (1%Z, w') /\
    fst (script fw w) <> 0%Z.
Proof.
  intros Hfail.
  destruct (build_failure_raises fw (after_banner w) e Hfail) as [w' Hb].
  assert (main fw w = (Raise e, w')) as Hmain.
  { unfold main. rewrite main_with_run.
    change (create_demo_model_with fw vocab_size embedding_dim max_length num_categories)
      with (create_demo_model fw).
    rewrite Hb. reflexivity. }
  exists w'. split; [exact Hb|]. split; [exact Hmain|].
  unfold script. rewrite Hmain. split; [reflexivity | discriminate].
Qed.

Lemma build_errors_are_fatal_witness :
  build_failure failing_convert_fw (hidden empty_world) unsupported_op
  /\ exists w',
       create_demo_model failing_convert_fw (after_banner empty_world)
       = (Raise unsupported_op, w') /\
       main failing_convert_fw empty_world = (Raise unsupported_op, w') /\
       script failing_convert_fw empty_world = (1%Z, w') /\
       fst (script failing_convert_fw empty_world) <> 0%Z.
Proof.
  assert (build_failure failing_convert_fw (hidden empty_world) unsupported_op) as H.
  { eapply fail_convert; reflexivity. }
  split; [exact H|].
  exact (build_errors_are_fatal failing_convert_fw empty_world unsupported_op H).
Defined.

(** ** The sample input *)

(** C6.  The sample input is a float32 array of shape (1, 128); its one
    row is 1, 2, 3, 4, 5 followed by 123 zeros, each value converted to
    float32 without rounding, and its width is the model's input width. *)
Theorem sample_input_row :
  nd_dtype sample_input = float32 /\
  nd_shape sample_input = [1; 128] /\
  nd_shape sample_input = declared_input_shape /\
  exists row,
    nd_rows sample_input = [row] /\
    row = (map float32_of_int [1; 2; 3; 4; 5]%Z ++ repeat (S754_zero false) 123)%list /\
    length row = max_length /\
    map int_of_float32 row = map Some ([1; 2; 3; 4; 5]%Z ++ repeat 0%Z 123).
Proof.
  split; [reflexivity|]. split; [reflexivity|]. split; [reflexivity|].
  eexists. split; [reflexivity|]. repeat split; vm_compute; reflexivity.
Qed.

(** ** Vocabulary size and embedding rows *)

Section Unchecked.

Variable fw : Framework.
Hypothesis Hret : build_calls_return fw.

(** With a framework whose build calls return, [create_demo_model]
    returns the model path, whatever the model parameters. *)
Lemma create_demo_model_with_returns v d m c (w : world (fw_state fw)) :
  exists w', create_demo_model_with fw v d m c w = (Ok model_path, w').
Proof.
  unfold create_demo_model_with, write_file, getsize, bind, lift, print, ret.
  cbn [hidden files console printed].
  destruct (bcr_Sequential fw Hret (demo_layers v d m c) (hidden w))
    as (model & h1 & ->).
  cbn [hidden files console printed].
  destruct (bcr_compile fw Hret model "adam" "sparse_categorical_crossentropy"
              ["accuracy"] h1) as ([] & h2 & ->).
  cbn [hidden files console printed].
  destruct (bcr_build fw Hret model [None; Some m] h2) as ([] & h3 & ->).
  cbn [hidden files console printed].
  destruct (bcr_summary fw Hret model h3) as (text & h4 & ->).
  cbn [hidden files console printed].
  destruct (bcr_concrete fw Hret model (demo_signature m) h4) as (f & h5 & ->).
  cbn [hidden files console printed].
  destruct (bcr_converter fw Hret [f] h5) as (conv & h6 & ->).
  cbn [hidden files console printed].
  destruct (bcr_convert fw Hret conv demo_settings h6) as (bytes & h7 & ->).
  cbn [hidden files console printed].
  destruct (bcr_write fw Hret model_path bytes h7) as ([] & h8 & ->).
  cbn [hidden files console printed].
  rewrite lookup_insert_eq. eexists. reflexivity.
Qed.

Lemma create_vocabulary_with_returns kws capacity (w : world (fw_state fw)) :
  exists w',
    create_vocabulary_with fw kws capacity w = (Ok vocab_path, w') /\
    files w' = <[vocab_path := Py.join Py.NL (build_vocab kws capacity)]> (files w).
Proof.
  rewrite create_vocabulary_with_run. cbv zeta.
  destruct (bcr_write fw Hret vocab_path
              (Py.join Py.NL (build_vocab kws capacity)) (hidden w))
    as ([] & h & ->).
  eexists. split; reflexivity.
Qed.

End Unchecked.

(** C7.  The script's vocabulary has as many tokens as its embedding table
    has rows, 5000.  Nothing checks this: with a framework whose build
    calls return, [main] run with any embedding row count [v] and any
    vocabulary bound [capacity], equal or not, returns normally, having
    asked for [v] embedding rows and written a vocabulary of
    [max (number of keywords) capacity] tokens. *)
Theorem vocabulary_size_unchecked fw v d m c
    (kws : list (string * list string)) (capacity : nat)
    (w : world (fw_state fw)) :
  build_calls_return fw ->
  embedding_rows model_layers = Some 5000 /\
  embedding_rows model_layers = Some (length vocab) /\
  exists w',
    main_with fw v d m c kws capacity w = (Ok tt, w') /\
    embedding_rows (demo_layers v d m c) = Some v /\
    files w' !! vocab_path = Some (Py.join Py.NL (build_vocab kws capacity)) /\
    length (build_vocab kws capacity)
    = Nat.max (length (flatten_keywords kws)) capacity.
Proof.
  intros Hret.
  split; [reflexivity|]. split; [rewrite vocab_length; reflexivity|].
  rewrite main_with_run.
  destruct (create_demo_model_with_returns fw Hret v d m c (after_banner w))
    as (w1 & ->).
  destruct (create_vocabulary_with_returns fw Hret kws capacity w1)
    as (w2 & -> & Hfiles).
  destruct (test_model_returns fw model_path w2) as (w3 & -> & Hkeep).
  eexists. split; [reflexivity|]. split; [reflexivity|]. split.
  - rewrite after_prints_files, Hkeep, Hfiles. apply lookup_insert_eq.
  - apply build_vocab_length.
Qed.

Lemma ideal_fw_returns : build_calls_return ideal_fw.
Proof. constructor; intros; intros h; eexists; eexists; reflexivity. Qed.

Lemma vocabulary_size_unchecked_witness :
  build_calls_return ideal_fw
  /\ embedding_rows model_layers = Some 5000
  /\ embedding_rows model_layers = Some (length vocab)
  /\ exists w',
       main_with ideal_fw 5000 32 128 8 keywords 4000 empty_world = (Ok tt, w') /\
       embedding_rows (demo_layers 5000 32 128 8) = Some 5000 /\
       files w' !! vocab_path = Some (Py.join Py.NL (build_vocab keywords 4000)) /\
       length (build_vocab keywords 4000)
       = Nat.max (length (flatten_keywords keywords)) 4000.
Proof.
  split; [exact ideal_fw_returns|].
  exact (vocabulary_size_unchecked ideal_fw 5000 32 128 8 keywords 4000 empty_world
           ideal_fw_returns).
Defined.

(** ** Two runs *)

(** C8.  Any two runs of the vocabulary builder that return, from any two
    worlds, leave vocabulary files with the same number of lines, 5000. *)
Theorem two_runs_same_line_count fw1 fw2
    (w1 : world (fw_state fw1)) (w2 : world (fw_state fw2)) p1 p2 w1' w2' :
  create_vocabulary fw1 w1 = (Ok p1, w1') ->
  create_vocabulary fw2 w2 = (Ok p2, w2') ->
  exists t1 t2,
    files w1' !! vocab_path = Some t1 /\
    files w2' !! vocab_path = Some t2 /\
    line_count t1 = line_count t2 /\
    line_count t1 = 5000.
Proof.
  intros H1 H2. exists vocab_text, vocab_text.
  split; [apply (create_vocabulary_file fw1 w1 p1 w1' H1)|].
  split; [apply (create_vocabulary_file fw2 w2 p2 w2' H2)|].
  split; [reflexivity | apply line_count_vocab_text].
Qed.

(** The second run starts where the first one ended. *)
Lemma two_runs_same_line_count_witness :
  create_vocabulary ideal_fw empty_world = (Ok vocab_path, after_first_run)
  /\ create_vocabulary ideal_fw after_first_run = (Ok vocab_path, after_second_run)
  /\ exists t1 t2,
       files after_first_run !! vocab_path = Some t1 /\
       files after_second_run !! vocab_path = Some t2 /\
       line_count t1 = line_count t2 /\
       line_count t1 = 5000.
Proof.
  split; [reflexivity|]. split; [reflexivity|].
  apply (two_runs_same_line_count ideal_fw ideal_fw empty_world after_first_run
           vocab_path vocab_path after_first_run after_second_run); reflexivity.
Defined.

(** ** Filler tokens *)

(** C9.  A filler token sits at the position its name carries: for every
    keyword dict and bound, the entry at a position [i] from the number of
    keywords up to the bound is [token_<i>], and the number read back from
    that name is [i].  The script's keyword lists hold 185 tokens, so its
    positions 185 .. 4999 hold [token_185] .. [token_4999], and position
    184 holds the last numeral. *)
Theorem filler_tokens_self_indexing
    (kws : list (string * list string)) (capacity i : nat) :
  length (flatten_keywords kws) <= i ->
  i < capacity ->
  build_vocab kws capacity !! i = Some ("token_" ++ Py.str i) /\
  token_index ("token_" ++ Py.str i) = Some i /\
  length (flatten_keywords keywords) = 185 /\
  length vocab = 5000 /\
  vocab !! 184 = Some "99" /\
  vocab !! 185 = Some "token_185" /\
  vocab !! 4999 = Some "token_4999".
Proof.
  intros Hlo Hhi.
  split; [apply (build_vocab_filler kws capacity i Hlo Hhi)|].
  split; [apply token_index_token|].
  split; [reflexivity|]. split; [apply vocab_length|].
  repeat split; reflexivity.
Qed.

Lemma filler_tokens_self_indexing_witness :
  length (flatten_keywords keywords) <= 2024
  /\ 2024 < 5000
  /\ vocab !! 2024 = Some "token_2024"
  /\ token_index "token_2024" = Some 2024.
Proof.
  assert (length (flatten_keywords keywords) <= 2024) as Hlo by (vm_compute; lia).
  assert (2024 < 5000) as Hhi by lia.
  split; [exact Hlo|]. split; [exact Hhi|].
  destruct (filler_tokens_self_indexing keywords 5000 2024 Hlo Hhi) as (H1 & H2 & _).
  split; [exact H1 | exact H2].
Defined.

(** ** Layout of the vocabulary file *)


(* ================================================================== *)
(** * Further properties of the vocabulary builder *)
(* ================================================================== *)

Section MoreVocabularyFacts.

Implicit Types (kws : list (string * list string)) (capacity : nat).
Local Arguments String.append !_ _ / : simpl nomatch.

Lemma range_split a b c : a <= b -> b <= c -> Py.range a c = (Py.range a b ++ Py.range b c)%list.
Proof.
  intros Hab Hbc. unfold Py.range.
  replace (c - a) with ((b - a) + (c - b)) by lia.
  rewrite seq_app. repeat f_equal. lia.
Qed.

Lemma no_LF_digits d : Py.no_LF (NilEmpty.string_of_uint d) = true.
Proof. induction d; simpl; try rewrite IHd; reflexivity. Qed.

Lemma no_LF_str i : Py.no_LF (Py.str i) = true.
Proof.
  unfold Py.str, NilZero.string_of_uint.
  destruct (Nat.to_uint i); try reflexivity; apply no_LF_digits.
Qed.

Lemma no_LF_token i : Py.no_LF (token i) = true.
Proof. unfold token. simpl. apply no_LF_str. Qed.

Lemma str_inj i j : Py.str i = Py.str j -> i = j.
Proof.
  intros H. apply (f_equal Py.int) in H. rewrite !int_str in H. congruence.
Qed.

Lemma token_inj i j : token i = token j -> i = j.
Proof. unfold token. simpl. intros [= H]. apply str_inj, H. Qed.

Lemma token_startswith i : Py.startswith (token i) "token_" = true.
Proof.
  unfold token, Py.startswith. simpl.
  destruct (Py.str i); reflexivity.
Qed.

Lemma flatten_keywords_app kws1 kws2 :
  flatten_keywords (kws1 ++ kws2)
  = (flatten_keywords kws1 ++ flatten_keywords kws2)%list.
Proof. rewrite !flatten_keywords_concat, map_app, concat_app. reflexivity. Qed.

Lemma build_vocab_no_LF kws capacity :
  forallb Py.no_LF (flatten_keywords kws) = true ->
  forallb Py.no_LF (build_vocab kws capacity) = true.
Proof.
  intros H. rewrite build_vocab_spec, forallb_app, H. simpl.
  apply forallb_forall. intros x [i [<- _]]%in_map_iff. apply no_LF_token.
Qed.

End MoreVocabularyFacts.

(** X1.  Padding composes: padding a list to [c1] and then to a larger
    [c2] gives what padding to [c2] at once gives, so padding twice to the
    same bound adds nothing, and the smaller vocabulary is a prefix of the
    larger one (no token changes position when the bound grows): the
    larger one continues it with the fillers numbered from its length up
    to [c2]. *)
Theorem padding_in_steps (v : list string) (c1 c2 : nat) :
  c1 <= c2 ->
  pad_vocab c2 (pad_vocab c1 v) = pad_vocab c2 v /\
  pad_vocab c1 (pad_vocab c1 v) = pad_vocab c1 v /\
  pad_vocab c1 v `prefix_of` pad_vocab c2 v /\
  length (pad_vocab c1 v) = Nat.max (length v) c1 /\
  pad_vocab c2 v
  = (pad_vocab c1 v
     ++ map (fun k => ("token_" ++ Py.str k)%string)
            (Py.range (Nat.max (length v) c1) c2))%list.
Proof.
  intros Hle.
  assert (length (pad_vocab c1 v) = Nat.max (length v) c1) as Hlen.
  { rewrite pad_vocab_spec, length_app, length_map, range_length. lia. }
  assert (forall a b, a <= b -> pad_vocab b (pad_vocab a v) = pad_vocab b v) as Hstep.
  { intros a b Hab. rewrite !pad_vocab_spec.
    rewrite length_app, length_map, range_length, <- app_assoc. f_equal.
    destruct (Nat.le_gt_cases a (length v)) as [Hfull|Hshort].
    - rewrite (range_empty (length v) a) by exact Hfull. simpl.
      replace (length v + (a - length v)) with (length v) by lia. reflexivity.
    - replace (length v + (a - length v)) with a by lia.
      rewrite <- map_app, <- range_split by lia. reflexivity. }
  split; [apply Hstep, Hle|]. split; [apply Hstep; lia|].
  assert (pad_vocab c2 v
          = (pad_vocab c1 v
             ++ map (fun k => ("token_" ++ Py.str k)%string)
                    (Py.range (Nat.max (length v) c1) c2))%list) as Hmore.
  { rewrite <- (Hstep c1 c2 Hle), (pad_vocab_spec c2 (pad_vocab c1 v)), Hlen.
    reflexivity. }
  split; [rewrite Hmore; eexists; reflexivity|].
  split; [exact Hlen | exact Hmore].
Qed.

Lemma padding_in_steps_witness :
  3 <= 5
  /\ pad_vocab 5 (pad_vocab 3 ["a"; "b"]) = pad_vocab 5 ["a"; "b"]
  /\ pad_vocab 3 (pad_vocab 3 ["a"; "b"]) = pad_vocab 3 ["a"; "b"]
  /\ pad_vocab 5 ["a"; "b"] = (pad_vocab 3 ["a"; "b"] ++ ["token_3"; "token_4"])%list.
Proof.
  assert (3 <= 5) as H by lia.
  split; [exact H|].
  destruct (padding_in_steps ["a"; "b"] 3 5 H) as (H1 & H2 & _ & _ & H3).
  split; [exact H1|]. split; [exact H2 | exact H3].
Defined.

(** X2.  The id of a hand-authored word depends only on the categories
    written before it: the [p]-th word of a category sits at the number of
    words of the earlier categories plus [p], whatever the bound and
    whatever categories follow. *)
Theorem keyword_id_by_category
    (before after : list (string * list string))
    (category : string) (words : list string) (capacity p : nat) :
  p < length words ->
  build_vocab (before ++ (category, words) :: after) capacity
    !! (length (concat (map snd before)) + p)
  = words !! p.
Proof.
  intros Hp. rewrite <- (flatten_keywords_concat before).
  rewrite build_vocab_keyword.
  - rewrite flatten_keywords_app, lookup_app_r by lia.
    replace (length (flatten_keywords before) + p - length (flatten_keywords before))
      with p by lia.
    change ((category, words) :: after) with ([(category, words)] ++ after)%list.
    rewrite flatten_keywords_app, lookup_app_l.
    + rewrite flatten_keywords_concat. simpl. rewrite app_nil_r. reflexivity.
    + rewrite flatten_keywords_concat. simpl. rewrite app_nil_r. exact Hp.
  - rewrite flatten_keywords_app. change ((category, words) :: after)
      with ([(category, words)] ++ after)%list.
    rewrite flatten_keywords_app, !length_app.
    rewrite (flatten_keywords_concat [(category, words)]). simpl.
    rewrite app_nil_r. lia.
Qed.

(** The first banking term of the script: 2 special tokens and 10 otp terms
    come before it. *)
Lemma keyword_id_by_category_witness :
  0 < length ["bank"; "account"]
  /\ build_vocab ([("special_tokens", ["[PAD]"; "[UNK]"]);
                  ("otp", ["otp"; "code"])]
                 ++ ("banking", ["bank"; "account"]) :: [("numbers", ["0"])]) 9
       !! (length (concat (map snd [("special_tokens", ["[PAD]"; "[UNK]"]);
                                     ("otp", ["otp"; "code"])])) + 0)
     = Some "bank".
Proof.
  assert (0 < length ["bank"; "account"]) as H by (simpl; lia).
  split; [exact H|].
  exact (keyword_id_by_category _ _ "banking" ["bank"; "account"] 9 0 H).
Defined.

(** X3.  When the hand-authored words are pairwise distinct and none of
    them starts with "token_", no token occurs twice in the vocabulary:
    every token has exactly one id. *)
Theorem vocabulary_tokens_distinct
    (kws : list (string * list string)) (capacity : nat) :
  NoDup (concat (map snd kws)) ->
  forallb (fun x => negb (Py.startswith x "token_")) (concat (map snd kws)) = true ->
  NoDup (build_vocab kws capacity) /\
  (forall i j x,
     build_vocab kws capacity !! i = Some x ->
     build_vocab kws capacity !! j = Some x -> i = j).
Proof.
  rewrite <- (flatten_keywords_concat kws). intros Hnodup Hnames.
  assert (NoDup (build_vocab kws capacity)) as H.
  { rewrite build_vocab_spec. apply NoDup_app. split; [exact Hnodup|]. split.
    - intros x Hx [i [-> _]]%list_elem_of_fmap.
      rewrite forallb_forall in Hnames.
      apply list_elem_of_In, Hnames in Hx.
      rewrite token_startswith in Hx. discriminate.
    - apply (NoDup_fmap_2_strong token).
      + intros i j _ _. apply token_inj.
      + apply NoDup_seq. }
  split; [exact H|]. apply NoDup_alt, H.
Qed.

(** The keyword lists of the script are such lists, so the 5000 tokens of
    its vocabulary are pairwise distinct. *)
Lemma vocabulary_tokens_distinct_witness :
  NoDup (concat (map snd keywords))
  /\ forallb (fun x => negb (Py.startswith x "token_")) (concat (map snd keywords)) = true
  /\ NoDup vocab
  /\ (forall i j x, vocab !! i = Some x -> vocab !! j = Some x -> i = j).
Proof.
  assert (NoDup (concat (map snd keywords))) as H1.
  { apply (bool_decide_unpack (NoDup (concat (map snd keywords)))).
    vm_compute. exact I. }
  assert (forallb (fun x => negb (Py.startswith x "token_")) (concat (map snd keywords))
          = true) as H2 by (vm_compute; reflexivity).
  split; [exact H1|]. split; [exact H2|].
  exact (vocabulary_tokens_distinct keywords 5000 H1 H2).
Defined.

(** X4.  Reading the vocabulary file back line by line gives the token
    list again, one token per line and line [i] holding id [i], for every
    keyword dict whose words hold no line feed, provided the list is not
    empty.  An empty vocabulary is written as an empty file, which reads
    back as one empty line; a word with a line feed in it takes two
    lines. *)
Theorem vocabulary_file_round_trip
    (kws : list (string * list string)) (capacity : nat) :
  forallb Py.no_LF (concat (map snd kws)) = true ->
  build_vocab kws capacity <> [] ->
  Py.split_lines (Py.join Py.NL (build_vocab kws capacity)) = build_vocab kws capacity /\
  line_count (Py.join Py.NL (build_vocab kws capacity))
  = Nat.max (length (concat (map snd kws))) capacity /\
  Py.split_lines (Py.join Py.NL (build_vocab [] 0)) = [""] /\
  Py.split_lines (Py.join Py.NL (build_vocab [("a", ["x" ++ Py.NL ++ "y"])] 1))
  = ["x"; "y"].
Proof.
  rewrite <- (flatten_keywords_concat kws). intros Hwords Hne.
  assert (Py.split_lines (Py.join Py.NL (build_vocab kws capacity))
          = build_vocab kws capacity) as Hback.
  { apply split_lines_join; [exact Hne | apply build_vocab_no_LF, Hwords]. }
  split; [exact Hback|]. split.
  - unfold line_count. rewrite Hback. apply build_vocab_length.
  - split; reflexivity.
Qed.

Lemma vocabulary_file_round_trip_witness :
  forallb Py.no_LF (concat (map snd [("a", ["x"; "y"])])) = true
  /\ build_vocab [("a", ["x"; "y"])] 4 <> []
  /\ Py.split_lines (Py.join Py.NL (build_vocab [("a", ["x"; "y"])] 4))
     = ["x"; "y"; "token_2"; "token_3"].
Proof.
  assert (forallb Py.no_LF (concat (map snd [("a", ["x"; "y"])])) = true) as H1
    by reflexivity.
  assert (build_vocab [("a", ["x"; "y"])] 4 <> []) as H2 by (vm_compute; discriminate).
  split; [exact H1|]. split; [exact H2|].
  destruct (vocabulary_file_round_trip [("a", ["x"; "y"])] 4 H1 H2) as (H & _).
  exact H.
Defined.

(* ================================================================== *)
(** * Further properties of the script *)
(* ================================================================== *)

Section MoreBuilderFacts.

Variable fw : Framework.
Implicit Types (w : world (fw_state fw)) (e : exn).

(** What a run of [create_demo_model] leaves behind: either it raised and
    the files are as before, or it returned the model path, the model file
    holds the bytes the converter returned, and the size printed last is
    the length of these bytes. *)
Lemma create_demo_model_with_cases v d m c w :
  (exists e, fst (create_demo_model_with fw v d m c w) = Raise e /\
             files (snd (create_demo_model_with fw v d m c w)) = files w)
  \/
  (fst (create_demo_model_with fw v d m c w) = Ok model_path /\
   exists bytes conv h h',
     lite_convert fw conv demo_settings h = (Ok bytes, h') /\
     files (snd (create_demo_model_with fw v d m c w))
     = <[model_path := bytes]> (files w) /\
     last (console (snd (create_demo_model_with fw v d m c w)))
     = Some ("  Size: " ++ fmt_megabytes fw (String.length bytes) ++ " MB")).
Proof.
  unfold create_demo_model_with, write_file, getsize, bind, lift, print, ret.
  cbn [hidden files console printed].
  destruct (keras_Sequential fw _ (hidden w)) as [[model|e1] h1];
    [| left; eexists; split; reflexivity ].
  cbn [hidden files console printed].
  destruct (keras_compile fw model _ _ _ h1) as [[[]|e2] h2];
    [| left; eexists; split; reflexivity ].
  cbn [hidden files console printed].
  destruct (keras_build fw model _ h2) as [[[]|e3] h3];
    [| left; eexists; split; reflexivity ].
  cbn [hidden files console printed].
  destruct (keras_summary fw model h3) as [[text|e4] h4];
    [| left; eexists; split; reflexivity ].
  cbn [hidden files console printed].
  destruct (tf_get_concrete_function fw model _ h4) as [[f|e5] h5];
    [| left; eexists; split; reflexivity ].
  cbn [hidden files console printed].
  destruct (lite_from_concrete_functions fw [f] h5) as [[conv|e6] h6];
    [| left; eexists; split; reflexivity ].
  cbn [hidden files console printed].
  destruct (lite_convert fw conv demo_settings h6) as [[bytes|e7] h7] eqn:Hconv;
    [| left; eexists; split; reflexivity ].
  cbn [hidden files console printed].
  destruct (os_write fw model_path bytes h7) as [[[]|e8] h8];
    [| left; eexists; split; reflexivity ].
  cbn [hidden files console printed].
  rewrite lookup_insert_eq. cbn [fst snd hidden files console printed].
  right. split; [reflexivity|].
  exists bytes, conv, h6, h7. split; [exact Hconv|]. split; [reflexivity|].
  apply last_snoc.
Qed.

Lemma create_demo_model_cases w :
  (exists e, fst (create_demo_model fw w) = Raise e /\
             files (snd (create_demo_model fw w)) = files w)
  \/
  (fst (create_demo_model fw w) = Ok model_path /\
   exists bytes conv h h',
     lite_convert fw conv demo_settings h = (Ok bytes, h') /\
     files (snd (create_demo_model fw w)) = <[model_path := bytes]> (files w) /\
     last (console (snd (create_demo_model fw w)))
     = Some ("  Size: " ++ fmt_megabytes fw (String.length bytes) ++ " MB")).
Proof.
  exact (create_demo_model_with_cases vocab_size embedding_dim max_length
           num_categories w).
Qed.

(** What a run of [create_vocabulary] leaves behind. *)
Lemma create_vocabulary_with_cases kws capacity w :
  (exists e, fst (create_vocabulary_with fw kws capacity w) = Raise e /\
             files (snd (create_vocabulary_with fw kws capacity w)) = files w)
  \/
  (fst (create_vocabulary_with fw kws capacity w) = Ok vocab_path /\
   files (snd (create_vocabulary_with fw kws capacity w))
   = <[vocab_path := Py.join Py.NL (build_vocab kws capacity)]> (files w)).
Proof.
  rewrite create_vocabulary_with_run. cbv zeta.
  destruct (os_write fw vocab_path _ (hidden w)) as [[[]|e] h].
  - right. split; reflexivity.
  - left. exists e. split; reflexivity.
Qed.

(** The same for the builder as the script calls it. *)
Lemma create_vocabulary_cases w :
  (exists e, fst (create_vocabulary fw w) = Raise e /\
             files (snd (create_vocabulary fw w)) = files w)
  \/
  (fst (create_vocabulary fw w) = Ok vocab_path /\
   files (snd (create_vocabulary fw w)) = <[vocab_path := vocab_text]> (files w)).
Proof. exact (create_vocabulary_with_cases keywords 5000 w). Qed.

(** [create_vocabulary] and [main] of the script, call by call. *)
Lemma create_vocabulary_run w :
  create_vocabulary fw w =
    match os_write fw vocab_path vocab_text (hidden w) with
    | (Ok _, h) =>
        (Ok vocab_path,
         fold_left printed
           [ "✓ Vocabulary saved to: " ++ vocab_path;
             "  Size: " ++ Py.str (length vocab) ++ " tokens" ]
           {| console := console (printed w (Py.NL ++ "Creating vocabulary file..."));
              files := <[vocab_path := vocab_text]> (files w);
              hidden := h |})
    | (Raise e, h) =>
        (Raise e,
         {| console := console (printed w (Py.NL ++ "Creating vocabulary file..."));
            files := files w; hidden := h |})
    end.
Proof. exact (create_vocabulary_with_run fw keywords 5000 w). Qed.

Lemma main_run w :
  main fw w =
    match create_demo_model fw (after_banner w) with
    | (Raise e, w1) => (Raise e, w1)
    | (Ok mp, w1) =>
        match create_vocabulary fw w1 with
        | (Raise e, w2) => (Raise e, w2)
        | (Ok vp, w2) =>
            match test_model fw mp w2 with
            | (Raise e, w3) => (Raise e, w3)
            | (Ok _, w3) => (Ok tt, fold_left printed (footer_lines mp vp) w3)
            end
        end
    end.
Proof.
  exact (main_with_run fw vocab_size embedding_dim max_length num_categories
           keywords 5000 w).
Qed.

Lemma paths_differ : model_path <> vocab_path.
Proof. discriminate. Qed.

(** The frame of a returning [create_demo_model]: the model file is there,
    every other file is as before. *)
Lemma create_demo_model_writes_model_frame w p w' :
  create_demo_model fw w = (Ok p, w') ->
  exists bytes,
    files w' !! model_path = Some bytes /\
    (forall path, path <> model_path -> files w' !! path = files w !! path).
Proof.
  intros Hrun. unfold create_demo_model in Hrun.
  destruct (create_demo_model_with_cases vocab_size embedding_dim max_length
              num_categories w) as [(e & He & _) | (_ & bytes & _ & _ & _ & _ & Hf & _)];
    rewrite Hrun in *; cbn [fst snd] in *; [discriminate|].
  exists bytes. rewrite Hf. split; [apply lookup_insert_eq|].
  intros path Hpath. apply lookup_insert_ne. congruence.
Qed.

End MoreBuilderFacts.


(** X6.  A run of [create_demo_model] that returns has returned
    "sms_classifier.tflite", has replaced that file, whatever it held, by
    the bytes a call of the converter with the script's settings returned,
    has changed no other file, and has printed last the size of exactly
    these bytes. *)
Theorem create_demo_model_writes_model fw (w : world (fw_state fw)) p w' :
  create_demo_model fw w = (Ok p, w') ->
  p = model_path /\
  exists bytes conv h h',
    lite_convert fw conv demo_settings h = (Ok bytes, h') /\
    files w' = <[model_path := bytes]> (files w) /\
    files w' !! model_path = Some bytes /\
    (forall path, path <> model_path -> files w' !! path = files w !! path) /\
    last (console w')
    = Some ("  Size: " ++ fmt_megabytes fw (String.length bytes) ++ " MB").
Proof.
  intros Hrun. unfold create_demo_model in Hrun.
  destruct (create_demo_model_with_cases fw vocab_size embedding_dim max_length
              num_categories w) as [(e & He & _) | (Hp & bytes & conv & h & h' & Hc & Hf & Hl)];
    rewrite Hrun in *; cbn [fst snd] in *; [discriminate|].
  split; [congruence|].
  exists bytes, conv, h, h'. split; [exact Hc|]. split; [exact Hf|].
  split; [rewrite Hf; apply lookup_insert_eq|].
  split; [|exact Hl].
  intros path Hpath. rewrite Hf. apply lookup_insert_ne. congruence.
Qed.

Lemma create_demo_model_writes_model_witness :
  create_demo_model ideal_fw empty_world = (Ok model_path, after_model_build)
  /\ files after_model_build !! model_path = Some "TFL3"
  /\ last (console after_model_build) = Some "  Size: 0.00 MB".
Proof.
  assert (create_demo_model ideal_fw empty_world = (Ok model_path, after_model_build))
    as H by reflexivity.
  split; [exact H|].
  destruct (create_demo_model_writes_model ideal_fw empty_world model_path
              after_model_build H) as (_ & bytes & conv & h & h' & Hc & _ & Hf & _ & Hl).
  injection Hc as <-. split; [exact Hf | exact Hl].
Defined.

(** X7.  A run of [main] that returns leaves both artifacts on disk: the
    model file holds the bytes the converter returned in this run, the
    vocabulary file holds the joined token list, and neither builder has
    disturbed the other's file.  The closing instructions, printed last,
    name exactly these two files. *)
Theorem main_writes_both_files fw (w : world (fw_state fw)) w' :
  main fw w = (Ok tt, w') ->
  exists bytes conv h h',
    lite_convert fw conv demo_settings h = (Ok bytes, h') /\
    files w' = <[vocab_path := vocab_text]> (<[model_path := bytes]> (files w)) /\
    files w' !! model_path = Some bytes /\
    files w' !! vocab_path = Some vocab_text /\
    (exists before, console w' = (before ++ footer_lines model_path vocab_path)%list) /\
    footer_lines model_path vocab_path !! 3
    = Some "1. Copy sms_classifier.tflite to assets/ml_models/" /\
    footer_lines model_path vocab_path !! 4
    = Some "2. Copy vocab.txt to assets/ml_models/".
Proof.
  rewrite main_run.
  destruct (create_demo_model_cases fw (after_banner w))
    as [(e & He & _) | (Hp & bytes & conv & h & h' & Hc & Hf & _)];
    destruct (create_demo_model fw (after_banner w)) as [[mp|e1] w1];
    cbn [fst snd] in *; try discriminate.
  destruct (create_vocabulary_cases fw w1) as [(e & He & _) | (Hv & Hfv)];
    destruct (create_vocabulary fw w1) as [[vp|e2] w2];
    cbn [fst snd] in *; try discriminate.
  destruct (test_model_returns fw mp w2) as (w3 & -> & Hkeep).
  intros Hret.
  assert (w' = fold_left printed (footer_lines mp vp) w3) as -> by congruence.
  clear Hret.
  assert (files (fold_left printed (footer_lines mp vp) w3)
          = <[vocab_path := vocab_text]> (<[model_path := bytes]> (files w))) as Hfiles.
  { rewrite after_prints_files, Hkeep, Hfv, Hf.
    unfold after_banner. rewrite after_prints_files. reflexivity. }
  assert (mp = model_path) as -> by congruence.
  assert (vp = vocab_path) as -> by congruence.
  exists bytes, conv, h, h'. split; [exact Hc|]. split; [exact Hfiles|].
  rewrite Hfiles. split.
  { rewrite lookup_insert_ne by (symmetry; apply paths_differ).
    apply lookup_insert_eq. }
  split; [apply lookup_insert_eq|].
  split; [|split; reflexivity].
  exists (console w3). apply after_prints_console.
Qed.

Lemma main_writes_both_files_witness :
  main ideal_fw empty_world = (Ok tt, after_main)
  /\ files after_main !! model_path = Some "TFL3"
  /\ files after_main !! vocab_path = Some vocab_text.
Proof.
  assert (main ideal_fw empty_world = (Ok tt, after_main)) as H.
  { pose proof (eq_refl : fst (main ideal_fw empty_world) = Ok tt) as Hfst.
    unfold after_main.
    destruct (main ideal_fw empty_world) as [r w']. cbn [fst snd] in *.
    rewrite Hfst. reflexivity. }
  split; [exact H|].
  destruct (main_writes_both_files ideal_fw empty_world after_main H)
    as (bytes & conv & h & h' & Hc & _ & Hm & Hv & _).
  injection Hc as <-. split; [exact Hm | exact Hv].
Defined.




(** X10.  A refused write of the vocabulary file is as fatal as a build
    error: [main] raises the exception of the operating system and the
    process exits with status 1.  The model file written before stays on
    disk as it was written, and nothing runs after the failed write: the
    last line printed is the announcement of the vocabulary step, and the
    framework is left in the state in which the write failed, so the smoke
    test was not started. *)
Theorem vocabulary_write_failure_is_fatal fw (w : world (fw_state fw)) mp w1 e h :
  create_demo_model fw (after_banner w) = (Ok mp, w1) ->
  os_write fw vocab_path vocab_text (hidden w1) = (Raise e, h) ->
  exists w',
    main fw w = (Raise e, w') /\
    fst (script fw w) = 1%Z /\
    files w' !! model_path = files w1 !! model_path /\
    (exists bytes, files w' !! model_path = Some bytes) /\
    console w' = (console w1 ++ [(Py.NL ++ "Creating vocabulary file...")%string])%list /\
    hidden w' = h.
Proof.
  intros Hbuild Hwrite.
  pose proof (create_vocabulary_run fw w1) as Hrun. rewrite Hwrite in Hrun.
  assert (main fw w
          = (Raise e, {| console := console (printed w1 (Py.NL ++ "Creating vocabulary file..."));
                         files := files w1; hidden := h |})) as Hmain.
  { rewrite main_run, Hbuild, Hrun. reflexivity. }
  eexists. split; [exact Hmain|].
  split; [unfold script; rewrite Hmain; reflexivity|].
  cbn [files console hidden printed].
  destruct (create_demo_model_writes_model_frame fw (after_banner w) mp w1 Hbuild)
    as (bytes & Hm & Hframe).
  split; [reflexivity|]. split; [exists bytes; exact Hm|].
  split; reflexivity.
Qed.

Lemma vocabulary_write_failure_is_fatal_witness :
  create_demo_model readonly_vocab_fw (after_banner empty_world)
  = (Ok model_path, after_model_build_ro)
  /\ os_write readonly_vocab_fw vocab_path vocab_text (hidden after_model_build_ro)
     = (Raise vocab_write_denied, tt)
  /\ exists w',
       main readonly_vocab_fw empty_world = (Raise vocab_write_denied, w') /\
       fst (script readonly_vocab_fw empty_world) = 1%Z /\
       files w' !! model_path = Some "TFL3".
Proof.
  assert (create_demo_model readonly_vocab_fw (after_banner empty_world)
          = (Ok model_path, after_model_build_ro)) as H1
    by (vm_compute; reflexivity).
  assert (os_write readonly_vocab_fw vocab_path vocab_text (hidden after_model_build_ro)
          = (Raise vocab_write_denied, tt)) as H2 by reflexivity.
  split; [exact H1|]. split; [exact H2|].
  destruct (vocabulary_write_failure_is_fatal readonly_vocab_fw empty_world model_path
              after_model_build_ro vocab_write_denied tt H1 H2)
    as (w' & Hmain & Hstatus & Hfiles & _).
  exists w'. split; [exact Hmain|]. split; [exact Hstatus|].
  rewrite Hfiles. reflexivity.
Defined.

(** X11.  An interpreter that loads the model but reports no input tensor
    makes [input_details[0]] raise IndexError inside the [try] block:
    [test_model] still returns normally, having printed the header of the
    details and then the warning with the message of the IndexError, and
    it makes no framework call after [get_output_details], so no tensor is
    set and no inference is run. *)
Theorem smoke_test_without_input_tensors fw (path : string) (w : world (fw_state fw))
    interpreter outputs h1 h2 h3 h4 :
  lite_Interpreter (tflite fw) path (files w !! path) (hidden w) = (Ok interpreter, h1) ->
  lite_allocate_tensors (tflite fw) interpreter h1 = (Ok tt, h2) ->
  lite_get_input_details (tflite fw) interpreter h2 = (Ok [], h3) ->
  lite_get_output_details (tflite fw) interpreter h3 = (Ok outputs, h4) ->
  exists w',
    test_model fw path w = (Ok tt, w') /\
    console w'
    = (console w
       ++ [ (Py.NL ++ "Testing model...")%string;
            (Py.NL ++ "Model Details:")%string;
            "⚠ Error testing model: list index out of range" ])%list /\
    files w' = files w /\
    hidden w' = h4.
Proof.
  intros H1 H2 H3 H4.
  eexists. split.
  - rewrite test_model_run.
    unfold test_model_body, at_try, bind, lift, print, item0, raise, ret.
    cbn [hidden files console printed].
    rewrite H1. cbn [hidden files console printed].
    rewrite H2. cbn [hidden files console printed].
    rewrite H3. cbn [hidden files console printed].
    rewrite H4. cbn [hidden files console printed].
    reflexivity.
  - cbn [hidden files console printed warned exn_msg].
    split; [|split; reflexivity].
    rewrite <- !app_assoc. reflexivity.
Qed.

Lemma smoke_test_without_input_tensors_witness :
  lite_Interpreter (tflite no_inputs_fw) model_path
    (files after_model_build !! model_path) (hidden after_model_build) = (Ok tt, tt)
  /\ lite_allocate_tensors (tflite no_inputs_fw) tt tt = (Ok tt, tt)
  /\ lite_get_input_details (tflite no_inputs_fw) tt tt = (Ok [], tt)
  /\ lite_get_output_details (tflite no_inputs_fw) tt tt
     = (Ok [ {| td_index := 0; td_shape := [1; 8] |} ], tt)
  /\ exists w',
       test_model no_inputs_fw model_path after_model_build = (Ok tt, w') /\
       console w'
       = (console after_model_build
          ++ [ (Py.NL ++ "Testing model...")%string;
               (Py.NL ++ "Model Details:")%string;
               "⚠ Error testing model: list index out of range" ])%list /\
       files w' = files after_model_build /\
       hidden w' = tt.
Proof.
  repeat (split; [reflexivity|]).
  exact (smoke_test_without_input_tensors no_inputs_fw model_path after_model_build
           tt [ {| td_index := 0; td_shape := [1; 8] |} ] tt tt tt tt
           eq_refl eq_refl eq_refl eq_refl).
Defined.

Section Protocol.

Variable fw : Framework.

(** Closes a case in which the [try] block has stopped: both runs agree,
    and the calls logged so far begin the protocol. *)
Ltac close_trace :=
  cbn [fst snd hidden files console];
  split; [reflexivity|]; split; [reflexivity|];
  eexists; eexists; eexists;
  split; [rewrite <- ?app_assoc; reflexivity|];
  split; [eexists; reflexivity | discriminate].

(** The [try] block run on the recording framework and on the framework
    itself: same outcome, same world up to the log, and the log has grown
    by a non-empty prefix of the protocol. *)
Lemma test_model_body_traced path (w : world (fw_state fw * list tflite_call)) :
  fst (test_model_body (traced_fw fw) path w)
  = fst (test_model_body fw path (erase_log w)) /\
  erase_log (snd (test_model_body (traced_fw fw) path w))
  = snd (test_model_body fw path (erase_log w)) /\
  exists calls i o,
    snd (hidden (snd (test_model_body (traced_fw fw) path w)))
    = (snd (hidden w) ++ calls)%list /\
    calls `prefix_of` smoke_test_protocol path (files w !! path) i o /\
    calls <> [].
Proof.
  destruct w as [con fs [h log]].
  unfold test_model_body, erase_log, bind, lift, print, item0, raise, ret, printed.
  cbn [tflite traced_fw traced_tflite lite_Interpreter lite_allocate_tensors
       lite_get_input_details lite_get_output_details lite_set_tensor
       lite_invoke lite_get_tensor fmt_int_array fmt_float_array
       hidden files console fst snd].
  unfold traced. cbn [fst snd hidden files console].
  destruct (lite_Interpreter (tflite fw) path (fs !! path) h) as [[interp|e] h1];
    cbn [fst snd hidden files console]; [|close_trace].
  destruct (lite_allocate_tensors (tflite fw) interp h1) as [[[]|e] h2];
    cbn [fst snd hidden files console]; [|close_trace].
  destruct (lite_get_input_details (tflite fw) interp h2) as [[ins|e] h3];
    cbn [fst snd hidden files console]; [|close_trace].
  destruct (lite_get_output_details (tflite fw) interp h3) as [[outs|e] h4];
    cbn [fst snd hidden files console]; [|close_trace].
  destruct ins as [|in0 ins]; cbn [fst snd hidden files console]; [close_trace|].
  destruct outs as [|out0 outs]; cbn [fst snd hidden files console]; [close_trace|].
  destruct (lite_set_tensor (tflite fw) interp (td_index in0) sample_input h4)
    as [[[]|e] h5]; cbn [fst snd hidden files console]; [|close_trace].
  destruct (lite_invoke (tflite fw) interp h5) as [[[]|e] h6];
    cbn [fst snd hidden files console]; [|close_trace].
  destruct (lite_get_tensor (tflite fw) interp (td_index out0) h6) as [[output|e] h7];
    cbn [fst snd hidden files console]; [|close_trace].
  destruct (nd_rows output) as [|row0 rows]; close_trace.
  Unshelve. all: exact 0%Z.
Qed.

End Protocol.


(** A run on the recording [ideal_fw] makes all seven calls, in order. *)
Example smoke_test_full_trace :
  snd (hidden (snd (test_model (traced_fw ideal_fw) model_path empty_traced_world)))
  = smoke_test_protocol model_path None 0 1.
Proof. reflexivity. Qed.

(** An interpreter that rejects the model is constructed and nothing else
    is called. *)
Example smoke_test_rejected_trace :
  snd (hidden (snd (test_model (traced_fw rejecting_fw) model_path empty_traced_world)))
  = [call_Interpreter model_path None].
Proof. reflexivity. Qed.

(** X13.  The token count [create_vocabulary] prints is the number of lines
    of the file it has just written, for every keyword dict whose words
    hold no line feed and every bound, as long as the vocabulary is not
    empty. *)
Theorem vocabulary_size_report fw (kws : list (string * list string)) (capacity : nat)
    (w : world (fw_state fw)) p w' :
  create_vocabulary_with fw kws capacity w = (Ok p, w') ->
  forallb Py.no_LF (concat (map snd kws)) = true ->
  build_vocab kws capacity <> [] ->
  exists text,
    files w' !! vocab_path = Some text /\
    last (console w') = Some ("  Size: " ++ Py.str (line_count text) ++ " tokens") /\
    line_count text = Nat.max (length (concat (map snd kws))) capacity.
Proof.
  rewrite <- (flatten_keywords_concat kws). intros Hrun Hwords Hne.
  rewrite create_vocabulary_with_run in Hrun. cbv zeta in Hrun.
  destruct (os_write fw vocab_path _ (hidden w)) as [[[]|e] h]; [|discriminate].
  assert (w' = snd (@Ok string p, w')) as -> by reflexivity.
  rewrite <- Hrun. clear Hrun. cbn [snd].
  assert (line_count (Py.join Py.NL (build_vocab kws capacity))
          = length (build_vocab kws capacity)) as Hlines.
  { unfold line_count. rewrite split_lines_join; [reflexivity | exact Hne |].
    apply build_vocab_no_LF, Hwords. }
  exists (Py.join Py.NL (build_vocab kws capacity)).
  split; [rewrite after_prints_files; apply lookup_insert_eq|].
  split.
  - rewrite Hlines, after_prints_console.
    change (?l ++ [?a; ?b])%list with (l ++ [a] ++ [b])%list.
    rewrite app_assoc. apply last_snoc.
  - rewrite Hlines. apply build_vocab_length.
Qed.

Lemma vocabulary_size_report_witness :
  create_vocabulary_with ideal_fw [("a", ["x"; "y"])] 4 empty_world
  = (Ok vocab_path, snd (create_vocabulary_with ideal_fw [("a", ["x"; "y"])] 4 empty_world))
  /\ forallb Py.no_LF (concat (map snd [("a", ["x"; "y"])])) = true
  /\ build_vocab [("a", ["x"; "y"])] 4 <> []
  /\ exists text,
       files (snd (create_vocabulary_with ideal_fw [("a", ["x"; "y"])] 4 empty_world))
         !! vocab_path = Some text /\
       last (console (snd (create_vocabulary_with ideal_fw [("a", ["x"; "y"])] 4
                             empty_world)))
       = Some ("  Size: " ++ Py.str (line_count text) ++ " tokens") /\
       line_count text = 4.
Proof.
  assert (create_vocabulary_with ideal_fw [("a", ["x"; "y"])] 4 empty_world
          = (Ok vocab_path,
             snd (create_vocabulary_with ideal_fw [("a", ["x"; "y"])] 4 empty_world)))
    as H1 by reflexivity.
  assert (forallb Py.no_LF (concat (map snd [("a", ["x"; "y"])])) = true) as H2
    by reflexivity.
  assert (build_vocab [("a", ["x"; "y"])] 4 <> []) as H3 by (vm_compute; discriminate).
  split; [exact H1|]. split; [exact H2|]. split; [exact H3|].
  exact (vocabulary_size_report ideal_fw [("a", ["x"; "y"])] 4 empty_world vocab_path _
           H1 H2 H3).
Defined.
